(** * Wells API client: data retrieval, pagination and client-side filters

    A shallow embedding of [wells_api_client.py] (class [WellsAPIClient]) and
    of the [safe_int] helper of [advanced_oil_dashboard.py].

    Python values are a tagged union, Python exceptions are the [Raise]
    branch of a result type, and the network is a world that answers each
    request and records what was sent and what was printed. *)

From Stdlib Require Import ZArith List String Ascii Bool Lia DecimalString Sorted.
Import ListNotations.
Local Open Scope string_scope.
Local Open Scope Z_scope.
Set Warnings "-register-all".

(** ** Python values *)

(** A Python float is kept as the decimal it was read from; rounding to
    binary64 is accounted for where the code looks at the float (its
    comparisons with zero, see [float_eq0] and [float_gt0]). *)
Inductive pyfloat : Type :=
| FNan
| FInf (negative : bool)
| FDec (negative : bool) (mantissa : Z) (exponent : Z).

(** An [xml.etree.ElementTree.Element]. *)
Inductive element : Type :=
| Element (tag : string) (attrib : list (string * string)) (text : string)
          (children : list element).

(** Dictionaries are association lists in insertion order. *)
Inductive value : Type :=
| VNone
| VBool (b : bool)
| VInt (z : Z)
| VFloat (f : pyfloat)
| VStr (s : string)
| VList (items : list value)
| VDict (entries : list (string * value))
| VElem (e : element).

Definition dict : Type := list (string * value).

Inductive exn : Type :=
| ValueError
| TypeError
| AttributeError
| KeyError
| OverflowError
| ParseError (msg : string).

Inductive result (A : Type) : Type :=
| Ok (a : A)
| Raise (e : exn).
Arguments Ok {A} a.
Arguments Raise {A} e.

Definition rbind {A B} (r : result A) (k : A -> result B) : result B :=
  match r with
  | Ok a => k a
  | Raise e => Raise e
  end.

(** ** Dictionaries *)

Fixpoint dict_get {V : Type} (k : string) (d : list (string * V)) : option V :=
  match d with
  | [] => None
  | (k', v) :: rest => if String.eqb k k' then Some v else dict_get k rest
  end.

Definition dict_mem {V : Type} (k : string) (d : list (string * V)) : bool :=
  match dict_get k d with
  | Some _ => true
  | None => false
  end.

(** [d[k] = v]: an existing key keeps its position, a new key goes last. *)
Fixpoint dict_set {V : Type} (k : string) (v : V) (d : list (string * V))
  : list (string * V) :=
  match d with
  | [] => [(k, v)]
  | (k', v') :: rest =>
      if String.eqb k k' then (k, v) :: rest else (k', v') :: dict_set k v rest
  end.

Definition dict_keys {V : Type} (d : list (string * V)) : list string :=
  map fst d.

(** ** Strings *)

Definition is_upper (c : ascii) : bool :=
  let n := nat_of_ascii c in (Nat.leb 65 n && Nat.leb n 90)%bool.

Definition lower_ascii (c : ascii) : ascii :=
  if is_upper c then ascii_of_nat (nat_of_ascii c + 32) else c.

(** Text is kept as its UTF-8 bytes.  The Kelvin sign, U+212A, is the
    bytes 226, 132, 170, and a byte from 128 to 191 continues the
    character begun before it. *)
Definition is_byte (n : nat) (c : ascii) : bool := Nat.eqb (nat_of_ascii c) n.

Definition is_continuation (c : ascii) : bool :=
  let n := nat_of_ascii c in (Nat.leb 128 n && Nat.leb n 191)%bool.

(** [str.lower] on the characters it turns into ASCII ones: the letters A
    to Z and the Kelvin sign, which becomes [k].  The other characters
    beyond ASCII are left as they are; [str.lower] maps each of them to
    text beyond ASCII again, so that whether the lower-case form of a text
    is a given ASCII text, and which one, is as in Python. *)
Fixpoint lower (s : string) : string :=
  match s with
  | EmptyString => EmptyString
  | String c rest =>
      match rest with
      | String c1 (String c2 rest') =>
          if (is_byte 226 c && is_byte 132 c1 && is_byte 170 c2)%bool
          then String "k" (lower rest')
          else String (lower_ascii c) (lower rest)
      | _ => String (lower_ascii c) (lower rest)
      end
  end.

(** [needle in haystack] on strings. *)
Fixpoint str_contains (needle haystack : string) : bool :=
  if String.prefix needle haystack then true
  else match haystack with
       | EmptyString => false
       | String _ rest => str_contains needle rest
       end.

(** [s[:n]]: the first [n] characters, each with its continuation bytes. *)
Fixpoint str_prefix (n : nat) (s : string) : string :=
  match s with
  | EmptyString => EmptyString
  | String c rest =>
      if is_continuation c then String c (str_prefix n rest)
      else match n with
           | O => EmptyString
           | S n' => String c (str_prefix n' rest)
           end
  end.

(** The characters of a text, each with its continuation bytes. *)
Fixpoint str_chars (s : string) : list string :=
  match s with
  | EmptyString => []
  | String c rest =>
      let chars := str_chars rest in
      let continued :=
        match rest with
        | String c1 _ => is_continuation c1
        | EmptyString => false
        end in
      match chars with
      | first :: others =>
          if continued then String c first :: others
          else String c EmptyString :: chars
      | [] => [String c EmptyString]
      end
  end.

(** [repr] of a list of plain identifiers (no quotes or escapes in them),
    as an f-string renders [list(d.keys())]. *)
Definition repr_str (s : string) : string := "'" ++ s ++ "'".

Definition repr_str_list (l : list string) : string :=
  "[" ++ String.concat ", " (map repr_str l) ++ "]".

(** ** Built-in operations on values *)

(** [f == 0] and [f > 0] on a float. *)
Definition float_eq0 (f : pyfloat) : bool :=
  match f with
  | FNan => false
  | FInf _ => false
  | FDec _ m e =>
      (* the decimal rounds to zero: m * 10^e <= 2^-1075 *)
      (m =? 0) || ((e <? 0) && (m * 2 ^ 1075 <=? 10 ^ (- e)))
  end.

Definition float_gt0 (f : pyfloat) : bool :=
  match f with
  | FNan => false
  | FInf neg => negb neg
  | FDec neg m e => negb neg && negb (float_eq0 (FDec neg m e))
  end.

(** Truth value of an object, as [if not x] tests it. *)
Definition truthy (v : value) : bool :=
  match v with
  | VNone => false
  | VBool b => b
  | VInt z => negb (z =? 0)
  | VFloat f => negb (float_eq0 f)
  | VStr s => negb (String.eqb s "")
  | VList l => match l with [] => false | _ => true end
  | VDict d => match d with [] => false | _ => true end
  | VElem (Element _ _ _ ch) => match ch with [] => false | _ => true end
  end.

Definition is_str (s : string) (v : value) : bool :=
  match v with
  | VStr s' => String.eqb s s'
  | _ => false
  end.

(** [key in x] for a string key. *)
Definition py_contains (key : string) (x : value) : result bool :=
  match x with
  | VDict d => Ok (dict_mem key d)
  | VStr s => Ok (str_contains key s)
  | VList l => Ok (existsb (is_str key) l)
  | VElem _ => Ok false
  | _ => Raise TypeError
  end.

(** [x[key]] for a string key. *)
Definition py_getitem (x : value) (key : string) : result value :=
  match x with
  | VDict d => match dict_get key d with
               | Some v => Ok v
               | None => Raise KeyError
               end
  | _ => Raise TypeError
  end.

(** [x[key] = v] for a string key. *)
Definition py_setitem (x : value) (key : string) (v : value) : result value :=
  match x with
  | VDict d => Ok (VDict (dict_set key v d))
  | _ => Raise TypeError
  end.

(** [x.get(key, default)] *)
Definition py_get (x : value) (key : string) (default : value) : result value :=
  match x with
  | VDict d => match dict_get key d with
               | Some v => Ok v
               | None => Ok default
               end
  | VElem (Element _ attrib _ _) =>
      match dict_get key attrib with
      | Some s => Ok (VStr s)
      | None => Ok default
      end
  | _ => Raise AttributeError
  end.

(** The items a [for] loop or [list.extend] draws from [x]. *)
Definition py_iter (x : value) : result (list value) :=
  match x with
  | VList l => Ok l
  | VDict d => Ok (map VStr (dict_keys d))
  | VStr s => Ok (map VStr (str_chars s))
  | VElem (Element _ _ _ ch) => Ok (map VElem ch)
  | _ => Raise TypeError
  end.

(** [len(x)] *)
Definition py_len (x : value) : result Z :=
  match x with
  | VList l => Ok (Z.of_nat (List.length l))
  | VDict d => Ok (Z.of_nat (List.length d))
  | VStr s => Ok (Z.of_nat (List.length (str_chars s)))
  | VElem (Element _ _ _ ch) => Ok (Z.of_nat (List.length ch))
  | _ => Raise TypeError
  end.

(** ** [float(x)]

    [float] of a string first turns the white space beyond ASCII into
    spaces and the decimal digits of other scripts into the digits 0 to 9,
    and fails on any other character beyond ASCII.  It then strips white
    space, checks and removes the underscores between digits, reads an
    optional sign and then either [inf], [infinity], [nan] (any case) or a
    decimal number with an optional exponent. *)

(** The code points of UTF-8 bytes; [-1] for bytes that are not UTF-8. *)
Fixpoint code_points (l : list ascii) : list Z :=
  match l with
  | [] => []
  | b0 :: rest =>
      let n0 := Z.of_nat (nat_of_ascii b0) in
      let cont (b : ascii) := Z.of_nat (nat_of_ascii b) - 128 in
      if n0 <? 128 then n0 :: code_points rest
      else if (192 <=? n0) && (n0 <? 224) then
        match rest with
        | b1 :: r =>
            if is_continuation b1
            then (n0 - 192) * 64 + cont b1 :: code_points r
            else -1 :: code_points rest
        | _ => -1 :: code_points rest
        end
      else if (224 <=? n0) && (n0 <? 240) then
        match rest with
        | b1 :: b2 :: r =>
            if is_continuation b1 && is_continuation b2
            then ((n0 - 224) * 64 + cont b1) * 64 + cont b2 :: code_points r
            else -1 :: code_points rest
        | _ => -1 :: code_points rest
        end
      else if (240 <=? n0) && (n0 <? 248) then
        match rest with
        | b1 :: b2 :: b3 :: r =>
            if is_continuation b1 && is_continuation b2 && is_continuation b3
            then (((n0 - 240) * 64 + cont b1) * 64 + cont b2) * 64 + cont b3
                 :: code_points r
            else -1 :: code_points rest
        | _ => -1 :: code_points rest
        end
      else -1 :: code_points rest
  end.

(** The white space beyond ASCII ([str.isspace], Unicode 14). *)
Definition unicode_space (cp : Z) : bool :=
  existsb (Z.eqb cp) [133; 160; 5760; 8232; 8233; 8239; 8287; 12288]
  || ((8192 <=? cp) && (cp <=? 8202)).

(** The first of each run of ten decimal digits beyond ASCII (Unicode 14). *)
Definition digit_runs : list Z :=
  [1632; 1776; 1984; 2406; 2534; 2662; 2790; 2918; 3046; 3174; 3302; 3430;
   3558; 3664; 3792; 3872; 4160; 4240; 6112; 6160; 6470; 6608; 6784; 6800;
   6992; 7088; 7232; 7248; 42528; 43216; 43264; 43472; 43504; 43600; 44016;
   65296; 66720; 68912; 69734; 69872; 69942; 70096; 70384; 70736; 70864;
   71248; 71360; 71472; 71904; 72016; 72784; 73040; 73120; 92768; 92864;
   93008; 120782; 120792; 120802; 120812; 120822; 123200; 123632; 125264;
   130032].

Definition unicode_digit (cp : Z) : option Z :=
  match find (fun start => (start <=? cp) && (cp <? start + 10)) digit_runs with
  | Some start => Some (cp - start)
  | None => None
  end.

(** The ASCII text [float] goes on with; [None] where a character is
    neither ASCII, white space nor a digit. *)
Fixpoint ascii_number_text (cps : list Z) : option (list ascii) :=
  match cps with
  | [] => Some []
  | cp :: rest =>
      let here :=
        if (0 <=? cp) && (cp <? 127) then Some (ascii_of_nat (Z.to_nat cp))
        else if unicode_space cp then Some " "%char
        else match unicode_digit cp with
             | Some d => Some (ascii_of_nat (Z.to_nat (48 + d)))
             | None => None
             end in
      match here, ascii_number_text rest with
      | Some c, Some l => Some (c :: l)
      | _, _ => None
      end
  end.

(** The white space the stripping takes off: tab to carriage return, and
    the space. *)
Definition is_space (c : ascii) : bool :=
  let n := nat_of_ascii c in
  ((Nat.leb 9 n && Nat.leb n 13) || Nat.eqb n 32)%bool.

Definition is_digit (c : ascii) : bool :=
  let n := nat_of_ascii c in (Nat.leb 48 n && Nat.leb n 57)%bool.

Definition digit_val (c : ascii) : Z := Z.of_nat (nat_of_ascii c) - 48.

Fixpoint lstrip (l : list ascii) : list ascii :=
  match l with
  | c :: rest => if is_space c then lstrip rest else l
  | [] => []
  end.

Definition strip (l : list ascii) : list ascii :=
  rev (lstrip (rev (lstrip l))).

(** Underscores are allowed only between two digits; [prev] is the
    character before the head of [l]. *)
Fixpoint drop_underscores (prev : option ascii) (l : list ascii)
  : option (list ascii) :=
  match l with
  | [] => match prev with
          | Some "_"%char => None
          | _ => Some []
          end
  | "_"%char :: rest =>
      match prev with
      | Some p => if is_digit p then drop_underscores (Some "_"%char) rest
                  else None
      | None => None
      end
  | c :: rest =>
      match prev with
      | Some "_"%char => if is_digit c
                         then option_map (cons c) (drop_underscores (Some c) rest)
                         else None
      | _ => option_map (cons c) (drop_underscores (Some c) rest)
      end
  end.

Fixpoint span_digits (l : list ascii) : list ascii * list ascii :=
  match l with
  | c :: rest =>
      if is_digit c
      then let (ds, tl) := span_digits rest in (c :: ds, tl)
      else ([], l)
  | [] => ([], [])
  end.

Definition digits_val (ds : list ascii) : Z :=
  fold_left (fun acc c => 10 * acc + digit_val c) ds 0.

Definition read_sign (l : list ascii) : bool * list ascii :=
  match l with
  | "-"%char :: rest => (true, rest)
  | "+"%char :: rest => (false, rest)
  | _ => (false, l)
  end.

(** The exponent part, empty or [e]/[E], an optional sign and digits up to
    the end of the text. *)
Definition read_exponent (l : list ascii) : option Z :=
  match l with
  | [] => Some 0
  | c :: rest =>
      if Ascii.eqb (lower_ascii c) "e"%char then
        let (neg, rest1) := read_sign rest in
        match span_digits rest1 with
        | ((_ :: _) as ds, []) =>
            Some (if neg then - digits_val ds else digits_val ds)
        | _ => None
        end
      else None
  end.

Definition read_number (neg : bool) (l : list ascii) : option pyfloat :=
  let (ip, rest) := span_digits l in
  let (fp, rest1) :=
    match rest with
    | "."%char :: r => span_digits r
    | _ => ([], rest)
    end in
  match (ip ++ fp)%list with
  | [] => None
  | ds => match read_exponent rest1 with
          | Some e => Some (FDec neg (digits_val ds) (e - Z.of_nat (List.length fp)))
          | None => None
          end
  end.

Definition float_of_ascii (text : list ascii) : option pyfloat :=
  match drop_underscores None (strip text) with
  | None => None
  | Some l =>
      let (neg, body) := read_sign l in
      let word := string_of_list_ascii (map lower_ascii body) in
      if String.eqb word "inf" || String.eqb word "infinity" then Some (FInf neg)
      else if String.eqb word "nan" then Some FNan
      else read_number neg body
  end.

Definition float_of_string (s : string) : option pyfloat :=
  match ascii_number_text (code_points (list_ascii_of_string s)) with
  | Some text => float_of_ascii text
  | None => None
  end.

(** An integer converts unless it rounds to 2^1024 or beyond. *)
Definition float_of_int (z : Z) : result pyfloat :=
  if 2 ^ 1024 - 2 ^ 970 <=? Z.abs z then Raise OverflowError
  else Ok (FDec (z <? 0) (Z.abs z) 0).

Definition py_float (x : value) : result pyfloat :=
  match x with
  | VStr s => match float_of_string s with
              | Some f => Ok f
              | None => Raise ValueError
              end
  | VInt z => float_of_int z
  | VBool b => Ok (FDec false (if b then 1 else 0) 0)
  | VFloat f => Ok f
  | _ => Raise TypeError
  end.

(** [safe_int] of [advanced_oil_dashboard.py]. *)
Definition safe_int (v : value) : value :=
  match v with
  | VStr s => match float_of_string s with
              | Some f => VFloat f
              | None => VInt 0
              end
  | _ => v
  end.

(** ** The world: upstream API, requests sent, lines printed *)

(** What [requests.get] hands back and what its decoders make of the body.
    [json] is the outcome of [response.json()]: the decoded value, or the
    message of the [JSONDecodeError] it raised, or another exception it
    raised (the [ValueError] of a number of too many digits, say).  [xml]
    is the outcome of [ET.fromstring(response.text)]: the element, or the
    message of its [ParseError]. *)
Record response : Type := {
  text : string;
  json : value + (string + exn);
  xml : element + string
}.

(** [RequestException] covers every failure of [requests.get] and of
    [raise_for_status]. *)
Inductive http_outcome : Type :=
| RequestException (msg : string)
| Response (r : response).

(** The query parameters of one GET. *)
Definition request : Type := list (string * value).

(** A printed line, an f-string kept as its parts. *)
Inductive fragment : Type :=
| Lit (s : string)
| FmtInt (z : Z)
| FmtVal (v : value).

(** [upstream k params] is the server's answer to the [k]-th request. *)
Record world : Type := {
  upstream : nat -> request -> http_outcome;
  sent : list request;
  printed : list (list fragment)
}.

Definition M (A : Type) : Type := world -> result A * world.

Definition ret {A} (a : A) : M A := fun w => (Ok a, w).

Definition bind {A B} (m : M A) (k : A -> M B) : M B :=
  fun w => match m w with
           | (Ok a, w') => k a w'
           | (Raise e, w') => (Raise e, w')
           end.

Definition lift {A} (r : result A) : M A := fun w => (r, w).

Declare Scope py_scope.
Delimit Scope py_scope with py.
Notation "x <- m ;; k" := (bind m (fun x => k))
  (at level 100, m at next level, right associativity) : py_scope.
Notation "m ;; k" := (bind m (fun _ => k))
  (at level 100, right associativity) : py_scope.
Notation "x <~ r ;; k" := (rbind r (fun x => k))
  (at level 100, r at next level, right associativity) : py_scope.
Local Open Scope py_scope.

(** The world after one more request, and after one more printed line. *)
Definition sending (w : world) (params : request) : world :=
  {| upstream := upstream w;
     sent := (sent w ++ [params])%list;
     printed := printed w |}.

Definition printing (w : world) (line : list fragment) : world :=
  {| upstream := upstream w;
     sent := sent w;
     printed := (printed w ++ [line])%list |}.

Definition print (line : list fragment) : M unit :=
  fun w => (Ok tt, printing w line).

Definition requests_get (params : request) : M http_outcome :=
  fun w => (Ok (upstream w (List.length (sent w)) params), sending w params).

(** ** The client *)

Record WellsAPIClient : Type := {
  api_key : string;
  base_url : string
}.

Definition default_client : WellsAPIClient := {|
  api_key := "579b464db66ec23bdd000001cdd3946e44ce4aad7209ff7b23ac571b";
  base_url := "https://api.data.gov.in/resource/0b344af7-b389-4e37-bf49-b4f1e59bbc49"
|}.

Definition build_params (self : WellsAPIClient) (format_type : string)
    (offset limit : Z) (filters : option dict) : request :=
  let params := [("api-key", VStr (api_key self));
                 ("format", VStr format_type);
                 ("offset", VInt offset);
                 ("limit", VInt limit)] in
  match filters with
  | Some fs =>
      fold_left (fun ps kv => dict_set ("filters[" ++ fst kv ++ "]") (snd kv) ps)
                fs params
  | None => params
  end.

Definition get_wells_data (self : WellsAPIClient) (format_type : string)
    (offset limit : Z) (filters : option dict) : M value :=
  outcome <- requests_get (build_params self format_type offset limit filters) ;;
  match outcome with
  | Response r =>
      if String.eqb format_type "json" then
        match json r with
        | inl v => ret v
        | inr (inl e) =>
            print [Lit "Error parsing JSON response: "; Lit e] ;;
            print [Lit "Response text: "; Lit (str_prefix 200 (text r)); Lit "..."] ;;
            ret (VDict [("error", VStr ("JSON decode error: " ++ e))])
        | inr (inr other) => lift (Raise other)
        end
      else if String.eqb format_type "xml" then
        match xml r with
        | inl el => ret (VElem el)
        | inr e => lift (Raise (ParseError e))
        end
      else ret (VStr (text r))
  | RequestException e =>
      print [Lit "Error making API request: "; Lit e] ;;
      ret (VDict [("error", VStr e)])
  end.

(** *** [get_all_wells_data] *)

Record loop_state : Type := {
  all_records : list value;
  offset : Z
}.

Inductive loop_step : Type :=
| Continue (st : loop_state)
| Break (records : list value).

(** One pass through the body of [while True]. *)
Definition loop_body (self : WellsAPIClient) (format_type : string)
    (batch_size : Z) (st : loop_state) : M loop_step :=
  response <- get_wells_data self format_type (offset st) batch_size None ;;
  has_error <- lift (py_contains "error" response) ;;
  if has_error : bool then
    err <- lift (py_getitem response "error") ;;
    print [Lit "Error at offset "; FmtInt (offset st); Lit ": "; FmtVal err] ;;
    ret (Break (all_records st))
  else if String.eqb format_type "json" then
    result <- lift (py_get response "result" (VDict [])) ;;
    records <- lift (py_get result "records" (VList [])) ;;
    if negb (truthy records) then ret (Break (all_records st))
    else
      items <- lift (py_iter records) ;;
      n <- lift (py_len records) ;;
      let st' := {| all_records := (all_records st ++ items)%list;
                    offset := offset st + batch_size |} in
      if n <? batch_size then ret (Break (all_records st'))
      else ret (Continue st')
  else ret (Break (all_records st ++ [response])%list).

(** The loop, run for at most [fuel] passes; [None] when they do not
    suffice. *)
Fixpoint while_true (fuel : nat) (self : WellsAPIClient) (format_type : string)
    (batch_size : Z) (st : loop_state) : M (option (list value)) :=
  match fuel with
  | O => ret None
  | S fuel' =>
      step <- loop_body self format_type batch_size st ;;
      match step with
      | Break records => ret (Some records)
      | Continue st' => while_true fuel' self format_type batch_size st'
      end
  end.

(** [all_records = []], [offset = 0] *)
Definition initial_state : loop_state := {| all_records := []; offset := 0 |}.

Definition get_all_wells_data (fuel : nat) (self : WellsAPIClient)
    (format_type : string) (batch_size : Z) : M (option (list value)) :=
  while_true fuel self format_type batch_size initial_state.

(** *** Filters *)

Definition state_filters : list (string * string) :=
  [("gujarat", "gujarat");
   ("rajasthan", "rajasthan");
   ("assam", "assam___arunachal_pradesh");
   ("tripura", "tripura");
   ("andhra_pradesh", "andhra_pradesh");
   ("tamilnadu", "tamilnadu");
   ("west_bengal", "west_bangal__cbm_");
   ("jharkhand", "jharkhand__cbm_");
   ("madhya_pradesh", "madhya_pradesh__cbm_");
   ("other_states", "other_state__up_hp_mp_bihar__punjab_jk_wb_")].

(** [[record for record in records if cond(record)]] on the items of
    [records]; the first exception of a condition ends it. *)
Fixpoint comprehension (cond : value -> result bool) (items : list value)
  : result (list value) :=
  match items with
  | [] => Ok []
  | record :: rest =>
      keep <~ cond record ;;
      kept <~ comprehension cond rest ;;
      Ok (if keep : bool then record :: kept else kept)
  end.

(** [float(record.get(field, 0)) > 0] and [... == 0] *)
Definition field_gt0 (field : string) (record : value) : result bool :=
  v <~ py_get record field (VInt 0) ;;
  f <~ py_float v ;;
  Ok (float_gt0 f).

Definition field_eq0 (field : string) (record : value) : result bool :=
  v <~ py_get record field (VInt 0) ;;
  f <~ py_float v ;;
  Ok (float_eq0 f).

(** The two assignments [all_data["records"] = ...] and
    [all_data["count"] = len(...)]. *)
Definition store_filtered (all_data : value) (filtered_records : list value)
  : result value :=
  d <~ py_setitem all_data "records" (VList filtered_records) ;;
  py_setitem d "count" (VInt (Z.of_nat (List.length filtered_records))).

Definition filter_by_state (self : WellsAPIClient) (state_name : string)
    (format_type : string) : M value :=
  if negb (dict_mem (lower state_name) state_filters) then
    ret (VDict [("error",
                 VStr ("Invalid state name. Available states: "
                       ++ repr_str_list (dict_keys state_filters)))])
  else
    all_data <- get_wells_data self format_type 0 1000 None ;;
    has_error <- lift (py_contains "error" all_data) ;;
    if has_error : bool then ret all_data
    else if String.eqb format_type "json" then
      records <- lift (py_get all_data "records" (VList [])) ;;
      state_field <- lift (match dict_get (lower state_name) state_filters with
                           | Some f => Ok f
                           | None => Raise KeyError
                           end) ;;
      items <- lift (py_iter records) ;;
      filtered_records <- lift (comprehension (field_gt0 state_field) items) ;;
      lift (store_filtered all_data filtered_records)
    else ret all_data.

Definition filter_by_status (self : WellsAPIClient) (status : string)
    (format_type : string) : M value :=
  get_wells_data self format_type 0 10 (Some [("status", VStr status)]).

Definition filter_by_offshore (self : WellsAPIClient) (offshore : bool)
    (format_type : string) : M value :=
  all_data <- get_wells_data self format_type 0 1000 None ;;
  has_error <- lift (py_contains "error" all_data) ;;
  if has_error : bool then ret all_data
  else if String.eqb format_type "json" then
    records <- lift (py_get all_data "records" (VList [])) ;;
    items <- lift (py_iter records) ;;
    filtered_records <-
      lift (if offshore
            then comprehension (field_gt0 "offshore") items
            else comprehension (field_eq0 "offshore") items) ;;
    lift (store_filtered all_data filtered_records)
  else ret all_data.

(** *** [WellsAPIClient.__init__] *)

Definition new_client (key : string) : WellsAPIClient :=
  {| api_key := key;
     base_url := "https://api.data.gov.in/resource/0b344af7-b389-4e37-bf49-b4f1e59bbc49" |}.

(** *** [main], the command line of [wells_api_client.py] *)

Module Cli.

(** The namespace [argparse] returns. *)
Record arguments : Type := {
  api_key : string;
  format : string;
  offset : Z;
  limit : Z;
  state : option string;
  status : option string;
  offshore : bool;
  onshore : bool;
  save : option string;
  all : bool
}.

(** [if args.state:] and the like: an option that was given and is not the
    empty text. *)
Definition given (o : option string) : option string :=
  match o with
  | Some s => if String.eqb s "" then None else Some s
  | None => None
  end.

(** What [main] goes on to do with the data once it has it: the call of
    [save_to_file], or the final [print] of the JSON text or of the data. *)
Inductive emitted : Type :=
| SaveToFile (data : value) (filename format_type : string)
| PrintJson (data : value)
| PrintData (data : value).

Inductive outcome : Type :=
| Returned
| Emitted (e : emitted).

(** [if "error" in result: print(result["error"]); return], then
    [data = result]; [None] stands for the early [return]. *)
Definition checked (result : value) : M (option value) :=
  has_error <- lift (py_contains "error" result) ;;
  if has_error : bool then
    err <- lift (py_getitem result "error") ;;
    print [FmtVal err] ;;
    ret None
  else ret (Some result).

(** The [if]/[elif] chain that picks the data; the outer [None] is a loop
    of [get_all_wells_data] that [fuel] passes do not end. *)
Definition select (fuel : nat) (client : WellsAPIClient) (args : arguments)
  : M (option (option value)) :=
  match given (state args) with
  | Some name =>
      result <- filter_by_state client name (format args) ;;
      data <- checked result ;;
      ret (Some data)
  | None =>
      match given (status args) with
      | Some text =>
          result <- filter_by_status client text (format args) ;;
          data <- checked result ;;
          ret (Some data)
      | None =>
          if offshore args then
            data <- filter_by_offshore client true (format args) ;;
            ret (Some (Some data))
          else if onshore args then
            data <- filter_by_offshore client false (format args) ;;
            ret (Some (Some data))
          else if all args then
            records <- get_all_wells_data fuel client (format args) 100 ;;
            ret (option_map (fun l => Some (VList l)) records)
          else
            data <- get_wells_data client (format args) (offset args) (limit args) None ;;
            ret (Some (Some data))
      end
  end.

Definition main (fuel : nat) (args : arguments) : M (option outcome) :=
  let client := new_client (api_key args) in
  selected <- select fuel client args ;;
  match selected with
  | None => ret None
  | Some None => ret (Some Returned)
  | Some (Some data) =>
      has_error <- lift (py_contains "error" data) ;;
      if has_error : bool then
        err <- lift (py_getitem data "error") ;;
        print [Lit "API Error: "; FmtVal err] ;;
        ret (Some Returned)
      else
        match given (save args) with
        | Some filename =>
            ret (Some (Emitted (SaveToFile data filename (format args))))
        | None =>
            if String.eqb (format args) "json"
            then ret (Some (Emitted (PrintJson data)))
            else ret (Some (Emitted (PrintData data)))
        end
  end.

End Cli.

(** *** [InteractiveOilMap.get_oil_wells_data] of [interactive_oil_map.py] *)

(** The fields of the map object the method reads and writes. *)
Record InteractiveOilMap : Type := {
  client : WellsAPIClient;
  state_data : value
}.

(** [phrase in record.get('status', '')] *)
Definition status_mentions (phrase : string) (record : value) : result bool :=
  status <~ py_get record "status" (VStr "") ;;
  py_contains phrase status.

(** The [for] loop with its [break]: the first record whose status
    mentions the total of flowing wells. *)
Fixpoint first_total_flowing (records : list value) : result (option value) :=
  match records with
  | [] => Ok None
  | record :: rest =>
      hit <~ status_mentions "Total Flowing Wells" record ;;
      if hit : bool then Ok (Some record) else first_total_flowing rest
  end.

(** The value returned and the object afterwards. *)
Definition get_oil_wells_data (self : InteractiveOilMap)
  : M (value * InteractiveOilMap) :=
  print [Lit "🔄 Fetching oil wells data..."] ;;
  data <- get_wells_data (client self) "json" 0 1000 None ;;
  has_error <- lift (py_contains "error" data) ;;
  if has_error : bool then
    err <- lift (py_getitem data "error") ;;
    print [Lit "Error fetching data: "; FmtVal err] ;;
    ret (VNone, self)
  else
    records <- lift (py_get data "records" (VList [])) ;;
    items <- lift (py_iter records) ;;
    found <- lift (first_total_flowing items) ;;
    match found with
    | Some record =>
        ret (record, {| client := client self; state_data := record |})
    | None => ret (state_data self, self)
    end.

(** [InteractiveOilMap.__init__] *)
Definition new_map : InteractiveOilMap :=
  {| client := default_client; state_data := VDict [] |}.

(** *** [AdvancedOilDashboard.get_state_rank] of [advanced_oil_dashboard.py] *)

Section StateRank.

(** What a count of wells is, and Python's [<] on two of them, taken to
    return: it is all that [sorted] asks of the counts. *)
Variable K : Type.
Variable lt : K -> K -> bool.

(** An entry of [state_info]. *)
Record state_entry : Type := {
  lat : pyfloat;
  lon : pyfloat;
  wells : K
}.

(** One step of [sorted(..., key=lambda x: x[1]['wells'], reverse=True)]:
    [x], which came before every item of [l], goes in front of the first
    item whose count is not above its own. *)
Fixpoint insert_desc (x : string * state_entry) (l : list (string * state_entry))
  : list (string * state_entry) :=
  match l with
  | [] => [x]
  | y :: rest =>
      if lt (wells (snd x)) (wells (snd y)) then y :: insert_desc x rest
      else x :: l
  end.

(** Descending by count, the items of equal count in their order: what
    [sorted] returns where [<] is a strict weak order on the counts.  On
    counts that do not compare the code raises, and on counts that compare
    as NaN does it may order otherwise. *)
Definition sorted_desc (items : list (string * state_entry))
  : list (string * state_entry) :=
  fold_right insert_desc [] items.

(** [for i, (s, _) in enumerate(sorted_states, i): if s == state: return i],
    then [return 0]. *)
Fixpoint rank_from (i : Z) (state : string) (l : list (string * state_entry)) : Z :=
  match l with
  | [] => 0
  | (s, _) :: rest => if String.eqb s state then i else rank_from (i + 1) state rest
  end.

Definition get_state_rank (state : string) (state_info : list (string * state_entry))
  : Z :=
  rank_from 1 state (sorted_desc state_info).

(** No later item has a count above an earlier one. *)
Definition descending (l : list (string * state_entry)) : Prop :=
  StronglySorted (fun a b => lt (wells (snd a)) (wells (snd b)) = false) l.

End StateRank.

Arguments lat {K} _.
Arguments lon {K} _.
Arguments wells {K} _.
Arguments insert_desc {K} lt x l.
Arguments sorted_desc {K} lt items.
Arguments rank_from {K} i state l.
Arguments get_state_rank {K} lt state state_info.
Arguments descending {K} lt l.

(** ** Fixtures: upstream servers for the examples *)

Definition dquote : string := String (ascii_of_nat 34) "".

Definition dec (z : Z) : string := NilZero.string_of_int (Z.to_int z).

(** The body text of a JSON fixture (plain keys and strings only). *)
Fixpoint body_of (v : value) : string :=
  match v with
  | VNone => "null"
  | VBool b => if b then "true" else "false"
  | VInt z => dec z
  | VFloat FNan => "NaN"
  | VFloat (FInf neg) => if neg then "-Infinity" else "Infinity"
  | VFloat (FDec neg m e) => (if neg then "-" else "") ++ dec m ++ "e" ++ dec e
  | VStr s => dquote ++ s ++ dquote
  | VList l => "[" ++ String.concat ", " (map body_of l) ++ "]"
  | VDict d =>
      "{" ++ String.concat ", "
               (map (fun '(k, x) => dquote ++ k ++ dquote ++ ": " ++ body_of x) d)
          ++ "}"
  | VElem _ => "null"
  end.

Definition json_response (v : value) : response :=
  {| text := body_of v;
     json := inl v;
     xml := inr "syntax error: line 1, column 0" |}.

(** A server that answers every request with the same JSON document. *)
Definition serving (v : value) : world :=
  {| upstream := fun _ _ => Response (json_response v);
     sent := [];
     printed := [] |}.

(** A server whose body is neither JSON nor well-formed XML. *)
Definition malformed_body : response :=
  {| text := "<wells><row>";
     json := inr (inl "Expecting value: line 1 column 1 (char 0)");
     xml := inr "no element found: line 1, column 12" |}.

Definition serving_malformed : world :=
  {| upstream := fun _ _ => Response malformed_body;
     sent := [];
     printed := [] |}.

Definition record_of (field : string) (v : value) : value := VDict [(field, v)].

Definition gujarat_parsed : value :=
  VDict [("total", VInt 2);
         ("records", VList [record_of "gujarat" (VStr "3547");
                            record_of "gujarat" (VStr "0")])].

Definition gujarat_unparsable : value :=
  VDict [("records", VList [record_of "gujarat" (VStr "3547");
                            record_of "gujarat" (VStr "NA")])].

Definition offshore_parsed : value :=
  VDict [("total", VInt 3);
         ("records", VList [record_of "offshore" (VStr "12");
                            record_of "status" (VStr "Flowing");
                            record_of "offshore" (VInt 0)])].

Definition offshore_unparsable : value :=
  VDict [("records", VList [record_of "offshore" (VStr "12");
                            record_of "offshore" (VStr "NA")])].

(** A server whose body is a number of more digits than the decoder
    converts. *)
Definition serving_too_many_digits : world :=
  {| upstream := fun _ _ =>
       Response {| text := String.concat "" (repeat "9" 4301);
                   json := inr (inr ValueError);
                   xml := inr "syntax error: line 1, column 0" |};
     sent := [];
     printed := [] |}.

(** JHARKHAND written with the Kelvin sign, U+212A, for its K. *)
Definition kelvin_jharkhand : string :=
  "JHAR"
  ++ String (ascii_of_nat 226) (String (ascii_of_nat 132) (String (ascii_of_nat 170) ""))
  ++ "HAND".

(** A server that answers every request with the same text, which is
    neither JSON nor XML. *)
Definition serving_text (body : string) : world :=
  {| upstream := fun _ _ =>
       Response {| text := body;
                   json := inr (inl "Expecting value: line 1 column 1 (char 0)");
                   xml := inr "syntax error: line 1, column 0" |};
     sent := [];
     printed := [] |}.

Definition numbered (i : nat) : value := record_of "sl_no" (VInt (Z.of_nat i)).

(** A page of three records, whatever the limit asked for. *)
Definition three_records : value :=
  VDict [("result", VDict [("records", VList (map numbered (seq 1 3)))])].

Definition five_records : list value := map numbered (seq 1 5).

Definition all_250_records : list value := map numbered (seq 1 250).

(** ** Vocabulary of the statements *)

(** The text begins with the bytes [a] and [b]. *)
Definition begins_with (a b : nat) (s : string) : bool :=
  match s with
  | String x (String y _) => (is_byte a x && is_byte b y)%bool
  | _ => false
  end.

(** The parameter name a filter goes under. *)
Definition filter_key (k : string) : string := "filters[" ++ k ++ "]".

Definition offset_of (params : request) : option Z :=
  match dict_get "offset" params with
  | Some (VInt z) => Some z
  | _ => None
  end.

Definition limit_of (params : request) : option Z :=
  match dict_get "limit" params with
  | Some (VInt z) => Some z
  | _ => None
  end.

(** The records [get_all_wells_data] draws from an answer: the items of
    [result.records] of a decoded JSON body. *)
Definition page_items (o : http_outcome) : option (list value) :=
  match o with
  | Response r =>
      match json r with
      | inl v =>
          match (result <~ py_get v "result" (VDict []) ;;
                 records <~ py_get result "records" (VList []) ;;
                 py_iter records) with
          | Ok items => Some items
          | Raise _ => None
          end
      | inr _ => None
      end
  | RequestException _ => None
  end.

(** No page asked for with limit [lim] holds more than [lim] records. *)
Definition honours_limit (lim : Z) (up : nat -> request -> http_outcome) : Prop :=
  forall k params items,
    limit_of params = Some lim ->
    page_items (up k params) = Some items ->
    Z.of_nat (List.length items) <= lim.

(** The loop state and the world after [k] passes that all went on to the
    next one; [None] when the loop ended or raised before. *)
Fixpoint passes (k : nat) (self : WellsAPIClient) (format_type : string)
    (batch_size : Z) (st : loop_state) (w : world) : option (loop_state * world) :=
  match k with
  | O => Some (st, w)
  | S k' =>
      match loop_body self format_type batch_size st w with
      | (Ok (Continue st'), w') => passes k' self format_type batch_size st' w'
      | _ => None
      end
  end.

(** [db[off : off + lim]] *)
Definition page (db : list value) (off lim : Z) : list value :=
  firstn (Z.to_nat lim) (skipn (Z.to_nat off) db).

(** An upstream that holds the records [db]: it answers a request for
    [lim] records from [off] with a mapping whose [result.records] is that
    slice of [db]. *)
Definition holds (db : list value) (up : nat -> request -> http_outcome) : Prop :=
  forall k params off lim,
    offset_of params = Some off ->
    limit_of params = Some lim ->
    exists r d rd,
      up k params = Response r
      /\ json r = inl (VDict d)
      /\ dict_mem "error" d = false
      /\ dict_get "result" d = Some (VDict rd)
      /\ dict_get "records" rd = Some (VList (page db off lim)).

(** Such an upstream, as a fixture. *)
Definition source_of (db : list value) : world :=
  {| upstream := fun _ params =>
       match offset_of params, limit_of params with
       | Some off, Some lim =>
           Response (json_response
                       (VDict [("result", VDict [("records", VList (page db off lim))])]))
       | _, _ => RequestException "400 Client Error: Bad Request"
       end;
     sent := [];
     printed := [] |}.

(** An upstream that holds [db] for the first request and is unreachable
    from the second on, as a fixture. *)
Definition unreachable_after_first (db : list value) : world :=
  {| upstream := fun k params =>
       match k with
       | O => upstream (source_of db) k params
       | S _ => RequestException "HTTPSConnectionPool: Read timed out."
       end;
     sent := [];
     printed := [] |}.

(** A fetch that failed, with the message [get_wells_data] reports. *)
Inductive fetch_fails : http_outcome -> string -> Prop :=
| transport_fails msg : fetch_fails (RequestException msg) msg
| decode_fails r e :
    json r = inr (inl e) ->
    fetch_fails (Response r) ("JSON decode error: " ++ e).


(** The state keys [filter_by_state] knows. *)
Definition known_states : list string := dict_keys state_filters.

(** The outcome of the next request of [w], were it [params]. *)
Definition next_outcome (w : world) (params : request) : http_outcome :=
  upstream w (List.length (sent w)) params.

(** The items of the top-level [records] entry of a response. *)
Definition fetched_items (all_data : value) : result (list value) :=
  records <~ py_get all_data "records" (VList []) ;;
  py_iter records.

(** What both filters do to a decoded JSON response [all_data], [cond]
    being the condition of the comprehension. *)
Definition client_side (all_data : value) (cond : value -> result bool)
  : result value :=
  has_error <~ py_contains "error" all_data ;;
  if has_error : bool then Ok all_data
  else
    items <~ fetched_items all_data ;;
    filtered_records <~ comprehension cond items ;;
    store_filtered all_data filtered_records.

(** [m] is the mapping [d] with [records] set to [filtered], [count] set to
    its length and every other entry as in [d]. *)
Definition only_records_and_count (d : dict) (filtered : list value) (m : value)
  : Prop :=
  exists d',
    m = VDict d'
    /\ dict_get "records" d' = Some (VList filtered)
    /\ dict_get "count" d' = Some (VInt (Z.of_nat (List.length filtered)))
    /\ forall k, k <> "records" -> k <> "count" -> dict_get k d' = dict_get k d.

(** An upstream whose every answer is a page of [batch_size] records or
    more, none of them empty. *)
Definition always_full (batch_size : Z) (up : nat -> request -> http_outcome)
  : Prop :=
  forall k params,
    exists r d rd records,
      up k params = Response r
      /\ json r = inl (VDict d)
      /\ dict_mem "error" d = false
      /\ dict_get "result" d = Some (VDict rd)
      /\ dict_get "records" rd = Some (VList records)
      /\ records <> []
      /\ batch_size <= Z.of_nat (List.length records).

(** A server that is never reached, as a fixture. *)
Definition unreachable : world :=
  {| upstream := fun _ _ => RequestException "HTTPSConnectionPool: Read timed out.";
     sent := [];
     printed := [] |}.

(** A server that answers every request with an error document. *)
Definition quota_exceeded : value :=
  VDict [("error", VStr "Rate limit exceeded"); ("records", VList [record_of "gujarat" (VStr "NA")])].

(** Records with counts of every sign, and one without the field. *)
Definition offshore_mixed : value :=
  VDict [("records", VList [record_of "offshore" (VStr "12");
                            record_of "offshore" (VStr "-3");
                            record_of "offshore" (VStr "nan");
                            record_of "offshore" (VStr "0.0");
                            record_of "status" (VStr "Flowing")])].

(** Command lines, as fixtures. *)
Definition plain_args : Cli.arguments :=
  {| Cli.api_key := "579b464db66ec23bdd000001cdd3946e44ce4aad7209ff7b23ac571b";
     Cli.format := "json";
     Cli.offset := 0;
     Cli.limit := 10;
     Cli.state := None;
     Cli.status := None;
     Cli.offshore := false;
     Cli.onshore := false;
     Cli.save := None;
     Cli.all := false |}.

(** [--state gujarat --limit 5] *)
Definition state_args : Cli.arguments :=
  {| Cli.api_key := Cli.api_key plain_args;
     Cli.format := "json";
     Cli.offset := 0;
     Cli.limit := 5;
     Cli.state := Some "gujarat";
     Cli.status := None;
     Cli.offshore := false;
     Cli.onshore := false;
     Cli.save := None;
     Cli.all := false |}.

(** [--state gujarat --status Flowing --onshore --all --offset 40 --limit 7] *)
Definition all_args_with_state : Cli.arguments :=
  {| Cli.api_key := Cli.api_key plain_args;
     Cli.format := "json";
     Cli.offset := 40;
     Cli.limit := 7;
     Cli.state := Some "gujarat";
     Cli.status := Some "Flowing";
     Cli.offshore := false;
     Cli.onshore := true;
     Cli.save := None;
     Cli.all := true |}.

(** [--state atlantis --save out.json] *)
Definition atlantis_args : Cli.arguments :=
  {| Cli.api_key := Cli.api_key plain_args;
     Cli.format := "json";
     Cli.offset := 0;
     Cli.limit := 10;
     Cli.state := Some "atlantis";
     Cli.status := None;
     Cli.offshore := false;
     Cli.onshore := false;
     Cli.save := Some "out.json";
     Cli.all := false |}.

(** [--all] *)
Definition all_args : Cli.arguments :=
  {| Cli.api_key := Cli.api_key plain_args;
     Cli.format := "json";
     Cli.offset := 0;
     Cli.limit := 10;
     Cli.state := None;
     Cli.status := None;
     Cli.offshore := false;
     Cli.onshore := false;
     Cli.save := None;
     Cli.all := true |}.

(** [--offshore --format csv --save offshore_wells.csv] *)
Definition csv_args : Cli.arguments :=
  {| Cli.api_key := Cli.api_key plain_args;
     Cli.format := "csv";
     Cli.offset := 0;
     Cli.limit := 10;
     Cli.state := None;
     Cli.status := None;
     Cli.offshore := true;
     Cli.onshore := false;
     Cli.save := Some "offshore_wells.csv";
     Cli.all := false |}.

(** Every answer of the upstream is a body with the text [error] in it. *)
Definition mentions_error (up : nat -> request -> http_outcome) : Prop :=
  forall k params,
    exists r, up k params = Response r /\ str_contains "error" (text r) = true.

(** Records of which the second is the total of flowing wells and the
    third has a status that is no text. *)
Definition status_records : value :=
  VDict [("records",
          VList [VDict [("status", VStr "Shut-in Wells"); ("gujarat", VStr "12")];
                 VDict [("status", VStr "Total Flowing Wells (Oil + Gas)");
                        ("gujarat", VStr "3547")];
                 VDict [("status", VInt 7)]])].

(** A computation that sends no request. *)
Definition keeps_sent {A} (m : M A) : Prop :=
  forall w, sent (snd (m w)) = sent w.

(** A [state_info] of whole counts, two of them equal. *)
Definition at_origin (n : Z) : state_entry Z :=
  {| lat := FDec false 0 0; lon := FDec false 0 0; wells := n |}.

Definition ranked_states : list (string * state_entry Z) :=
  [("Rajasthan", at_origin 459);
   ("Tripura", at_origin 0);
   ("Gujarat", at_origin 3547);
   ("Tamil Nadu", at_origin 459);
   ("Jharkhand (CBM)", at_origin 0)].

(** * Properties *)

(** ** Dictionaries and comprehensions *)

Lemma dict_get_set_same {V} (k : string) (v : V) d :
  dict_get k (dict_set k v d) = Some v.
Proof.
  induction d as [|[k' v'] d IH]; simpl.
  - now rewrite String.eqb_refl.
  - destruct (String.eqb k k') eqn:E; simpl; rewrite ?String.eqb_refl, ?E; auto.
Qed.

Lemma dict_get_set_other {V} (k k' : string) (v : V) d :
  k <> k' -> dict_get k (dict_set k' v d) = dict_get k d.
Proof.
  intros Hne. apply String.eqb_neq in Hne.
  induction d as [|[k0 v0] d IH]; simpl.
  - now rewrite Hne.
  - destruct (String.eqb k' k0) eqn:E; simpl.
    + apply String.eqb_eq in E. subst k0. now rewrite Hne.
    + now rewrite IH.
Qed.

(** Where no condition raises, a comprehension is [filter]: it keeps the
    items that pass, in their order. *)
Lemma comprehension_filter cond (p : value -> bool) items :
  (forall x, In x items -> cond x = Ok (p x)) ->
  comprehension cond items = Ok (filter p items).
Proof.
  induction items as [|x items IH]; intros H; simpl; [reflexivity|].
  rewrite (H x (or_introl eq_refl)). simpl.
  rewrite IH by (intros y Hy; apply H; now right). simpl.
  now destruct (p x).
Qed.

(** Conversely a comprehension that returns has evaluated every condition. *)
Lemma comprehension_ok cond items kept :
  comprehension cond items = Ok kept ->
  exists p, (forall x, In x items -> cond x = Ok (p x)) /\ kept = filter p items.
Proof.
  revert kept. induction items as [|x items IH]; intros kept H; simpl in H.
  - exists (fun _ => true). split; [intros ? []|]. now inversion H.
  - destruct (cond x) as [b|] eqn:Ex; simpl in H; [|discriminate].
    destruct (comprehension cond items) as [kept'|] eqn:Er; simpl in H; [|discriminate].
    destruct (IH kept' eq_refl) as (p & Hp & ->). inversion H; subst kept; clear H.
    exists (fun y => match cond y with Ok c => c | Raise _ => false end).
    split.
    + intros y [<-|Hy]; [now rewrite Ex|]. now rewrite (Hp y Hy).
    + simpl. rewrite Ex.
      assert (Hf : filter p items
                   = filter (fun y => match cond y with Ok c => c | Raise _ => false end)
                            items)
        by (apply filter_ext_in; intros y Hy; now rewrite (Hp y Hy)).
      now rewrite Hf.
Qed.

Lemma dict_mem_keys {V} (k : string) (d : list (string * V)) :
  dict_mem k d = true <-> In k (dict_keys d).
Proof.
  unfold dict_mem, dict_keys. induction d as [|[k' v] d IH]; simpl.
  - split; [discriminate | tauto].
  - destruct (String.eqb k k') eqn:E.
    + apply String.eqb_eq in E. subst. split; auto.
    + apply String.eqb_neq in E. rewrite IH. split; [auto | intros [H|H]; congruence].
Qed.

Lemma known_state_field state_name :
  In (lower state_name) known_states ->
  dict_mem (lower state_name) state_filters = true
  /\ exists field, dict_get (lower state_name) state_filters = Some field.
Proof.
  intros H. apply dict_mem_keys in H. split; [exact H|].
  unfold dict_mem in H.
  destruct (dict_get (lower state_name) state_filters) as [f|]; [eauto | discriminate].
Qed.

(** ** [get_wells_data], case by case *)

Section GetWellsData.
Variables (self : WellsAPIClient) (format_type : string) (offset limit : Z).
Variables (filters : option dict) (w : world).

Let params := build_params self format_type offset limit filters.

Lemma get_wells_data_request_failed e :
  next_outcome w params = RequestException e ->
  get_wells_data self format_type offset limit filters w
  = (Ok (VDict [("error", VStr e)]),
     printing (sending w params) [Lit "Error making API request: "; Lit e]).
Proof.
  unfold next_outcome, get_wells_data, bind, requests_get. fold params.
  intros Ho. simpl. now rewrite Ho.
Qed.

Lemma get_wells_data_decoded r v :
  format_type = "json" ->
  next_outcome w params = Response r -> json r = inl v ->
  get_wells_data self format_type offset limit filters w
  = (Ok v, sending w params).
Proof.
  unfold next_outcome, get_wells_data, bind, requests_get. fold params.
  intros Hf Ho Hj.
  assert (He : String.eqb format_type "json" = true) by now apply String.eqb_eq.
  simpl. rewrite Ho, He, Hj. reflexivity.
Qed.

Lemma get_wells_data_json_decode_error r e :
  format_type = "json" ->
  next_outcome w params = Response r -> json r = inr (inl e) ->
  get_wells_data self format_type offset limit filters w
  = (Ok (VDict [("error", VStr ("JSON decode error: " ++ e))]),
     printing
       (printing (sending w params) [Lit "Error parsing JSON response: "; Lit e])
       [Lit "Response text: "; Lit (str_prefix 200 (text r)); Lit "..."]).
Proof.
  unfold next_outcome, get_wells_data, bind, requests_get. fold params.
  intros Hf Ho Hj.
  assert (He : String.eqb format_type "json" = true) by now apply String.eqb_eq.
  simpl. rewrite Ho, He, Hj. reflexivity.
Qed.

Lemma get_wells_data_xml_malformed r e :
  format_type = "xml" ->
  next_outcome w params = Response r -> xml r = inr e ->
  get_wells_data self format_type offset limit filters w
  = (Raise (ParseError e), sending w params).
Proof.
  unfold next_outcome, get_wells_data, bind, requests_get. fold params.
  intros Hf Ho Hx.
  assert (Hj : String.eqb format_type "json" = false) by now rewrite Hf.
  assert (He : String.eqb format_type "xml" = true) by now apply String.eqb_eq.
  simpl. rewrite Ho, Hj, He, Hx. reflexivity.
Qed.

(** Every call sends exactly one request, the one [build_params] makes. *)
Lemma get_wells_data_sends :
  sent (snd (get_wells_data self format_type offset limit filters w))
  = (sent w ++ [params])%list.
Proof.
  unfold get_wells_data, bind, requests_get. fold params. simpl.
  destruct (upstream w _ params) as [e|r]; simpl; [reflexivity|].
  destruct (String.eqb format_type "json").
  - destruct (json r) as [v|[e|other]]; reflexivity.
  - destruct (String.eqb format_type "xml"); [destruct (xml r)|]; reflexivity.
Qed.

(** What a call in a format other than JSON returns is a text, an element
    or the error mapping: [in] never raises on it. *)
Lemma non_json_payload v w' :
  format_type <> "json" ->
  get_wells_data self format_type offset limit filters w = (Ok v, w') ->
  exists b, py_contains "error" v = Ok b.
Proof.
  intros Hf. apply String.eqb_neq in Hf.
  unfold get_wells_data, bind, requests_get. fold params. simpl.
  destruct (upstream w _ params) as [e|r]; simpl.
  - intros H; inversion H; subst. simpl. eauto.
  - rewrite Hf. destruct (String.eqb format_type "xml").
    + destruct (xml r); simpl; intros H; inversion H; subst. simpl. eauto.
    + intros H; inversion H; subst. simpl. eauto.
Qed.
Lemma get_wells_data_upstream :
  upstream (snd (get_wells_data self format_type offset limit filters w))
  = upstream w.
Proof.
  unfold get_wells_data, bind, requests_get. fold params. simpl.
  destruct (upstream w _ params) as [e|r]; simpl; [reflexivity|].
  destruct (String.eqb format_type "json").
  - destruct (json r) as [v|[e|other]]; reflexivity.
  - destruct (String.eqb format_type "xml"); [destruct (xml r)|]; reflexivity.
Qed.

(** A JSON call whose value has no [error] in it returns the decoded body. *)
Lemma get_wells_data_json_inv v w' :
  format_type = "json" ->
  get_wells_data self format_type offset limit filters w = (Ok v, w') ->
  py_contains "error" v = Ok false ->
  exists r, next_outcome w params = Response r /\ json r = inl v.
Proof.
  intros Hf.
  assert (He : String.eqb format_type "json" = true) by now apply String.eqb_eq.
  unfold get_wells_data, bind, requests_get, next_outcome. fold params. simpl.
  destruct (upstream w _ params) as [e|r]; simpl.
  - intros H; inversion H; subst. discriminate.
  - rewrite He. destruct (json r) as [v'|[e|other]] eqn:Hj; simpl.
    + intros H; inversion H; subst. eauto.
    + intros H; inversion H; subst. discriminate.
    + discriminate.
Qed.
End GetWellsData.

(** ** The filters on a decoded JSON response *)

Section JsonFilters.
Variables (self : WellsAPIClient) (w : world) (r : response) (all_data : value).

Let params := build_params self "json" 0 1000 None.

Hypothesis fetched : next_outcome w params = Response r.
Hypothesis decoded : json r = inl all_data.

Lemma filter_by_state_json state_name field :
  dict_get (lower state_name) state_filters = Some field ->
  filter_by_state self state_name "json" w
  = (client_side all_data (field_gt0 field), sending w params).
Proof.
  intros Hfield. unfold filter_by_state, dict_mem. rewrite Hfield.
  change (negb true) with false. unfold bind at 1. cbv beta iota.
  rewrite (get_wells_data_decoded self "json" 0 1000 None w r all_data eq_refl fetched decoded).
  fold params. unfold client_side, fetched_items, bind, lift, ret, rbind.
  destruct (py_contains "error" all_data) as [[|]|]; try reflexivity.
  simpl String.eqb. cbv iota.
  destruct (py_get all_data "records" (VList [])) as [records|]; try reflexivity.
  destruct (py_iter records) as [items|]; try reflexivity.
  destruct (comprehension (field_gt0 field) items); reflexivity.
Qed.

Lemma filter_by_offshore_json offshore :
  filter_by_offshore self offshore "json" w
  = (client_side all_data (if offshore then field_gt0 "offshore" else field_eq0 "offshore"),
     sending w params).
Proof.
  unfold filter_by_offshore. unfold bind at 1.
  rewrite (get_wells_data_decoded self "json" 0 1000 None w r all_data eq_refl fetched decoded).
  fold params. unfold client_side, fetched_items, bind, lift, ret, rbind.
  destruct (py_contains "error" all_data) as [[|]|]; try reflexivity.
  simpl String.eqb. cbv iota.
  destruct (py_get all_data "records" (VList [])) as [records|]; try reflexivity.
  destruct (py_iter records) as [items|]; try reflexivity.
  destruct offshore;
    match goal with |- context [comprehension ?c items] =>
      destruct (comprehension c items); reflexivity end.
Qed.
End JsonFilters.

(** On a mapping without an [error] key whose records all coerce, the
    client-side part is a stable filter of the records. *)
Lemma client_side_filters (d : dict) cond (p : value -> bool) records :
  dict_mem "error" d = false ->
  dict_get "records" d = Some (VList records) ->
  (forall x, In x records -> cond x = Ok (p x)) ->
  client_side (VDict d) cond
  = Ok (VDict (dict_set "count" (VInt (Z.of_nat (List.length (filter p records))))
                 (dict_set "records" (VList (filter p records)) d))).
Proof.
  intros Herr Hrec Hcond. unfold client_side, fetched_items. simpl.
  rewrite Herr, Hrec. simpl. rewrite (comprehension_filter cond p records Hcond).
  reflexivity.
Qed.

Lemma store_filtered_frame (d : dict) filtered m :
  store_filtered (VDict d) filtered = Ok m -> only_records_and_count d filtered m.
Proof.
  unfold store_filtered. simpl. intros H. inversion H; subst m; clear H.
  eexists. split; [reflexivity|]. repeat split.
  - rewrite dict_get_set_other by discriminate. apply dict_get_set_same.
  - apply dict_get_set_same.
  - intros k Hr Hc. now rewrite !dict_get_set_other.
Qed.

Lemma client_side_frame (d : dict) cond m :
  dict_mem "error" d = false ->
  client_side (VDict d) cond = Ok m ->
  exists items filtered,
    fetched_items (VDict d) = Ok items
    /\ comprehension cond items = Ok filtered
    /\ only_records_and_count d filtered m.
Proof.
  intros Herr. unfold client_side. simpl py_contains. rewrite Herr. simpl rbind.
  destruct (fetched_items (VDict d)) as [items|]; simpl; [|discriminate].
  destruct (comprehension cond items) as [filtered|] eqn:Hc; simpl; [|discriminate].
  intros H. exists items, filtered.
  split; [reflexivity|]. split; [exact Hc|]. now apply store_filtered_frame.
Qed.

(** What the state filter returns when every record coerces: the records
    with a positive count, in the order fetched. *)
Lemma filter_by_state_keeps_positive self w r (d : dict) records state_name field p :
  next_outcome w (build_params self "json" 0 1000 None) = Response r ->
  json r = inl (VDict d) ->
  dict_mem "error" d = false ->
  dict_get "records" d = Some (VList records) ->
  dict_get (lower state_name) state_filters = Some field ->
  (forall x, In x records -> field_gt0 field x = Ok (p x)) ->
  fst (filter_by_state self state_name "json" w)
  = Ok (VDict (dict_set "count" (VInt (Z.of_nat (List.length (filter p records))))
                 (dict_set "records" (VList (filter p records)) d))).
Proof.
  intros Ho Hj Herr Hrec Hfield Hcond.
  rewrite (filter_by_state_json self w r (VDict d) Ho Hj state_name field Hfield).
  simpl fst. now apply client_side_filters.
Qed.

Lemma filter_by_offshore_keeps self w r (d : dict) records (offshore : bool) p :
  next_outcome w (build_params self "json" 0 1000 None) = Response r ->
  json r = inl (VDict d) ->
  dict_mem "error" d = false ->
  dict_get "records" d = Some (VList records) ->
  (forall x, In x records ->
     (if offshore then field_gt0 "offshore" x else field_eq0 "offshore" x) = Ok (p x)) ->
  fst (filter_by_offshore self offshore "json" w)
  = Ok (VDict (dict_set "count" (VInt (Z.of_nat (List.length (filter p records))))
                 (dict_set "records" (VList (filter p records)) d))).
Proof.
  intros Ho Hj Herr Hrec Hcond.
  rewrite (filter_by_offshore_json self w r (VDict d) Ho Hj offshore).
  simpl fst. apply client_side_filters; auto.
  intros x Hx. specialize (Hcond x Hx). now destruct offshore.
Qed.

(** The example of the specification: of a record with [gujarat: "3547"] and
    one with [gujarat: "0"], the first is returned. *)
Example filter_by_state_gujarat :
  fst (filter_by_state default_client "gujarat" "json" (serving gujarat_parsed))
  = Ok (VDict [("total", VInt 2);
               ("records", VList [record_of "gujarat" (VStr "3547")]);
               ("count", VInt 1)]).
Proof. reflexivity. Qed.

Example filter_by_offshore_both :
  fst (filter_by_offshore default_client true "json" (serving offshore_parsed))
  = Ok (VDict [("total", VInt 3);
               ("records", VList [record_of "offshore" (VStr "12")]);
               ("count", VInt 1)])
  /\ fst (filter_by_offshore default_client false "json" (serving offshore_parsed))
     = Ok (VDict [("total", VInt 3);
                  ("records", VList [record_of "status" (VStr "Flowing");
                                     record_of "offshore" (VInt 0)]);
                  ("count", VInt 2)]).
Proof. split; reflexivity. Qed.

(** [safe_int] is the coercion of the specification: zero for text that
    does not parse, the float for text that does, any other value as it is. *)
Lemma safe_int_spec :
  (forall s f, float_of_string s = Some f -> safe_int (VStr s) = VFloat f)
  /\ (forall s, float_of_string s = None -> safe_int (VStr s) = VInt 0)
  /\ (forall v, (forall s, v <> VStr s) -> safe_int v = v).
Proof.
  repeat split.
  - intros s f H. simpl. now rewrite H.
  - intros s H. simpl. now rewrite H.
  - intros v H. destruct v; try reflexivity. now destruct (H s).
Qed.

(** The filters' coercion agrees with it on an absent field and on text
    that parses. *)
Lemma field_gt0_absent field (d : dict) :
  dict_get field d = None -> field_gt0 field (VDict d) = Ok false.
Proof. intros H. unfold field_gt0. simpl. now rewrite H. Qed.

Lemma field_eq0_absent field (d : dict) :
  dict_get field d = None -> field_eq0 field (VDict d) = Ok true.
Proof. intros H. unfold field_eq0. simpl. now rewrite H. Qed.

Lemma field_gt0_text field (d : dict) s f :
  dict_get field d = Some (VStr s) -> float_of_string s = Some f ->
  field_gt0 field (VDict d) = Ok (float_gt0 f).
Proof. intros H Hf. unfold field_gt0. simpl. rewrite H. simpl. now rewrite Hf. Qed.

Lemma field_gt0_unparsable field (d : dict) s :
  dict_get field d = Some (VStr s) -> float_of_string s = None ->
  field_gt0 field (VDict d) = Raise ValueError.
Proof. intros H Hf. unfold field_gt0. simpl. rewrite H. simpl. now rewrite Hf. Qed.

(** ** The claims *)

(** C1: the coercion of the filter engine is not total. On a record whose
    field is the text [abc] the condition of [filter_by_state] and of
    [filter_by_offshore] raises [ValueError] and so does the filter, where
    [safe_int] of the dashboard returns 0. *)
Theorem filter_coercion_raises_on_text :
  field_gt0 "gujarat" (record_of "gujarat" (VStr "abc")) = Raise ValueError
  /\ field_eq0 "offshore" (record_of "offshore" (VStr "abc")) = Raise ValueError
  /\ fst (filter_by_state default_client "gujarat" "json"
            (serving (VDict [("records", VList [record_of "gujarat" (VStr "abc")])])))
     = Raise ValueError
  /\ fst (filter_by_offshore default_client true "json"
            (serving (VDict [("records", VList [record_of "offshore" (VStr "abc")])])))
     = Raise ValueError
  /\ safe_int (VStr "abc") = VInt 0.
Proof. repeat split; reflexivity. Qed.

(** C5: a body that is not JSON comes back as an error mapping with the
    decoder's message, the body's prefix printed; a body that is not
    well-formed XML makes [get_wells_data] raise the parser's exception. *)
Theorem get_wells_data_xml_parse_error_propagates :
  get_wells_data default_client "json" 0 10 None serving_malformed
  = (Ok (VDict [("error",
                 VStr "JSON decode error: Expecting value: line 1 column 1 (char 0)")]),
     printing
       (printing
          (sending serving_malformed (build_params default_client "json" 0 10 None))
          [Lit "Error parsing JSON response: ";
           Lit "Expecting value: line 1 column 1 (char 0)"])
       [Lit "Response text: "; Lit "<wells><row>"; Lit "..."])
  /\ fst (get_wells_data default_client "xml" 0 10 None serving_malformed)
     = Raise (ParseError "no element found: line 1, column 12").
Proof. split; reflexivity. Qed.

(** C6: with a record whose state field is the text [NA] in the fetched
    list, [filter_by_state] returns nothing: it raises [ValueError]. *)
Theorem filter_by_state_raises_on_unparsable_field :
  fst (filter_by_state default_client "gujarat" "json" (serving gujarat_unparsable))
  = Raise ValueError.
Proof. reflexivity. Qed.

(** C7: with a record whose offshore field is the text [NA] in the fetched
    list, [filter_by_offshore] raises [ValueError] for either flag. *)
Theorem filter_by_offshore_raises_on_unparsable_field :
  fst (filter_by_offshore default_client true "json" (serving offshore_unparsable))
  = Raise ValueError
  /\ fst (filter_by_offshore default_client false "json" (serving offshore_unparsable))
     = Raise ValueError.
Proof. split; reflexivity. Qed.

(** C8: a state name whose lower-case form is none of the ten keys gets
    the error mapping that lists the ten keys, and the world is as before:
    nothing was requested, nothing printed. *)
Theorem filter_by_state_unrecognized self state_name format_type w :
  ~ In (lower state_name)
       ["gujarat"; "rajasthan"; "assam"; "tripura"; "andhra_pradesh"; "tamilnadu";
        "west_bengal"; "jharkhand"; "madhya_pradesh"; "other_states"] ->
  filter_by_state self state_name format_type w
  = (Ok (VDict [("error",
                 VStr "Invalid state name. Available states: ['gujarat', 'rajasthan', 'assam', 'tripura', 'andhra_pradesh', 'tamilnadu', 'west_bengal', 'jharkhand', 'madhya_pradesh', 'other_states']")]),
     w).
Proof.
  intros Hnot. unfold filter_by_state.
  destruct (dict_mem (lower state_name) state_filters) eqn:E.
  - apply dict_mem_keys in E. contradiction.
  - reflexivity.
Qed.

(** A name is known by its lower-case form as [str.lower] gives it: with
    the Kelvin sign for its K, JHARKHAND is known and the records are
    fetched. *)
Example filter_by_state_kelvin_sign :
  lower kelvin_jharkhand = "jharkhand"
  /\ sent (snd (filter_by_state default_client kelvin_jharkhand "json"
                  (serving gujarat_parsed)))
     = [build_params default_client "json" 0 1000 None].
Proof. split; reflexivity. Qed.

Lemma filter_by_state_unrecognized_witness :
  filter_by_state default_client "Atlantis" "json" (serving gujarat_parsed)
  = (Ok (VDict [("error",
                 VStr "Invalid state name. Available states: ['gujarat', 'rajasthan', 'assam', 'tripura', 'andhra_pradesh', 'tamilnadu', 'west_bengal', 'jharkhand', 'madhya_pradesh', 'other_states']")]),
     serving gujarat_parsed).
Proof.
  apply (filter_by_state_unrecognized default_client "Atlantis" "json").
  simpl. intros H. repeat (destruct H as [H|H]; [discriminate H|]). exact H.
Defined.

(** After a fetch in a format other than JSON, the [error] test returns
    the payload or falls through to the final [return all_data]. *)
Ltac pass_through Hf Hne :=
  unfold bind at 1;
  match goal with
  | |- context [get_wells_data ?self ?fmt ?o ?l ?fs ?w] =>
      let Hg := fresh "Hg" in
      let Hb := fresh "Hb" in
      let b := fresh "b" in
      destruct (get_wells_data self fmt o l fs w) as [[?v|?e] ?w'] eqn:Hg;
      [ destruct (non_json_payload _ _ _ _ _ _ _ _ Hf Hg) as [b Hb];
        unfold bind, lift; rewrite Hb; destruct b;
        [ reflexivity | now rewrite Hne ]
      | reflexivity ]
  end.

(** C9: in a format other than [json] both filters return what
    [get_wells_data] returned for the first 1000 records, as it is. *)
Theorem non_json_filters_are_identity self format_type w :
  format_type <> "json" ->
  (forall state_name,
      In (lower state_name) known_states ->
      filter_by_state self state_name format_type w
      = get_wells_data self format_type 0 1000 None w)
  /\ (forall offshore,
        filter_by_offshore self offshore format_type w
        = get_wells_data self format_type 0 1000 None w).
Proof.
  intros Hf.
  assert (Hne : String.eqb format_type "json" = false) by now apply String.eqb_neq.
  split.
  - intros state_name Hin. apply known_state_field in Hin as [Hmem _].
    unfold filter_by_state. rewrite Hmem. change (negb true) with false. cbv iota.
    pass_through Hf Hne.
  - intros offshore. unfold filter_by_offshore. pass_through Hf Hne.
Qed.

(** ** The pagination loop *)

Lemma py_len_iter x items n :
  py_iter x = Ok items -> py_len x = Ok n -> n = Z.of_nat (List.length items).
Proof.
  destruct x as [| | | | s | l | d | [tag attrib txt ch]]; simpl; try discriminate;
    intros Hi Hn; inversion Hi; inversion Hn; subst;
    unfold dict_keys; now rewrite ?length_map.
Qed.

(** Case analysis on whatever a hypothesis or the goal branches on. *)
Ltac branch_in H :=
  repeat match type of H with
         | context [match ?x with _ => _ end] =>
             destruct x eqn:?; simpl in H; try discriminate H
         | context [if ?b then _ else _] =>
             destruct b eqn:?; simpl in H; try discriminate H
         end.

Ltac branch :=
  repeat match goal with
         | |- context [match ?x with _ => _ end] => destruct x eqn:?; simpl
         | |- context [if ?b then _ else _] => destruct b eqn:?; simpl
         end.

(** A pass sends one request, at the offset of its state, and leaves the
    upstream as it is. *)
Lemma loop_body_world self format_type batch_size st w step w' :
  loop_body self format_type batch_size st w = (step, w') ->
  upstream w' = upstream w
  /\ sent w'
     = (sent w ++ [build_params self format_type (offset st) batch_size None])%list.
Proof.
  pose proof (get_wells_data_upstream self format_type (offset st) batch_size None w) as Hu.
  pose proof (get_wells_data_sends self format_type (offset st) batch_size None w) as Hs.
  unfold loop_body. unfold bind at 1.
  remember (build_params self format_type (offset st) batch_size None) as p.
  destruct (get_wells_data self format_type (offset st) batch_size None w) as [[v|e] w1];
    cbn [snd] in Hu, Hs.
  - rewrite <- Hu, <- Hs. unfold bind, lift, ret, print. intros H.
    branch_in H; inversion H; subst; auto.
  - intros H; inversion H; subst; auto.
Qed.

(** A pass that goes on has appended a page of at least [batch_size]
    records and moved the offset by [batch_size]. *)
Lemma loop_body_continue self format_type batch_size st w st' w' :
  loop_body self format_type batch_size st w = (Ok (Continue st'), w') ->
  exists items,
    page_items (next_outcome w (build_params self format_type (offset st) batch_size None))
    = Some items
    /\ batch_size <= Z.of_nat (List.length items)
    /\ st' = {| all_records := (all_records st ++ items)%list;
                offset := offset st + batch_size |}.
Proof.
  unfold loop_body. unfold bind at 1.
  destruct (get_wells_data self format_type (offset st) batch_size None w)
    as [[v|e] w1] eqn:Hg; [|discriminate].
  unfold bind, lift, ret, print. intros H. branch_in H.
  inversion H; subst st' w'; clear H.
  match goal with Hf : String.eqb format_type "json" = true |- _ =>
    apply String.eqb_eq in Hf end.
  match goal with Hc : py_contains "error" v = Ok false |- _ =>
    destruct (get_wells_data_json_inv _ _ _ _ _ _ _ _ ltac:(eassumption) Hg Hc)
      as (r & Ho & Hj) end.
  match goal with Hi : py_iter _ = Ok ?items |- _ => exists items end.
  unfold page_items. rewrite Ho, Hj.
  repeat match goal with Hx : _ = Ok _ |- _ => rewrite Hx; simpl rbind end.
  split; [reflexivity|]. split; [|reflexivity].
  match goal with
  | Hi : py_iter ?x = Ok _, Hn : py_len ?x = Ok _ |- _ =>
      rewrite <- (py_len_iter _ _ _ Hi Hn)
  end.
  now apply Z.ltb_ge.
Qed.

(** A pass over a decoded page of records. *)
Lemma loop_body_page self batch_size st w r (d rd : dict) records :
  let params := build_params self "json" (offset st) batch_size None in
  next_outcome w params = Response r ->
  json r = inl (VDict d) ->
  dict_mem "error" d = false ->
  dict_get "result" d = Some (VDict rd) ->
  dict_get "records" rd = Some (VList records) ->
  loop_body self "json" batch_size st w
  = (Ok (match records with
         | [] => Break (all_records st)
         | _ :: _ =>
             if Z.of_nat (List.length records) <? batch_size
             then Break (all_records st ++ records)%list
             else Continue {| all_records := (all_records st ++ records)%list;
                              offset := offset st + batch_size |}
         end),
     sending w params).
Proof.
  intros params Ho Hj Herr Hres Hrec. unfold loop_body. unfold bind at 1.
  rewrite (get_wells_data_decoded self "json" (offset st) batch_size None w r (VDict d)
             eq_refl Ho Hj).
  fold params. unfold bind, lift, ret. simpl. rewrite Herr, Hres. simpl. rewrite Hrec.
  destruct records as [|x records]; simpl; [reflexivity|].
  destruct (Z.pos (Pos.of_succ_nat (List.length records)) <? batch_size); reflexivity.
Qed.

(** What [passes] keeps: the upstream, one request per pass at the
    multiples of [batch_size], and an offset that counts the records
    retrieved when no page is longer than asked for. *)
Lemma passes_invariant self format_type batch_size k : forall st w st' w',
  passes k self format_type batch_size st w = Some (st', w') ->
  upstream w' = upstream w
  /\ offset st' = offset st + Z.of_nat k * batch_size
  /\ sent w'
     = (sent w ++ map (fun i => build_params self format_type
                                  (offset st + Z.of_nat i * batch_size) batch_size None)
                     (seq 0 k))%list
  /\ (honours_limit batch_size (upstream w) ->
      offset st = Z.of_nat (List.length (all_records st)) ->
      offset st' = Z.of_nat (List.length (all_records st'))).
Proof.
  induction k as [|k IH]; intros st w st' w' H.
  - simpl in H. inversion H; subst. simpl. rewrite app_nil_r.
    repeat split; auto with zarith.
  - simpl in H.
    destruct (loop_body self format_type batch_size st w) as [[[st1|?]|?] w1] eqn:Hb;
      try discriminate.
    destruct (loop_body_world _ _ _ _ _ _ _ Hb) as [Hu1 Hs1].
    destruct (loop_body_continue _ _ _ _ _ _ _ Hb) as (items & Hp & Hlen & ->).
    destruct (IH _ _ _ _ H) as (Hu & Ho & Hs & Hinv).
    cbn [offset all_records] in Ho, Hs, Hinv.
    split; [congruence|]. split; [lia|]. split.
    + rewrite Hs, Hs1, <- app_assoc. f_equal.
      change (seq 0 (S k)) with (0%nat :: seq 1 k). rewrite <- seq_shift.
      cbn [map app]. rewrite map_map, Z.add_0_r. f_equal. apply map_ext. intros i.
      f_equal. lia.
    + intros Hhon Hst. apply Hinv; [now rewrite Hu1|].
      rewrite length_app, Nat2Z.inj_add, <- Hst. f_equal.
      assert (Hle : Z.of_nat (List.length items) <= batch_size).
      { apply (Hhon (List.length (sent w))
                    (build_params self format_type (offset st) batch_size None));
          [reflexivity | exact Hp]. }
      lia.
Qed.

Lemma while_true_step fuel self format_type batch_size st w :
  while_true (S fuel) self format_type batch_size st w
  = match loop_body self format_type batch_size st w with
    | (Ok (Break records), w') => (Ok (Some records), w')
    | (Ok (Continue st'), w') => while_true fuel self format_type batch_size st' w'
    | (Raise e, w') => (Raise e, w')
    end.
Proof.
  simpl. unfold bind.
  destruct (loop_body self format_type batch_size st w) as [[[st'|records]|e] w'];
    reflexivity.
Qed.

(** [passes] follows the loop: after [k] passes that went on, the loop
    carries on from the state and world [passes] gives. *)
Lemma while_true_passes self format_type batch_size k : forall fuel st w st' w',
  passes k self format_type batch_size st w = Some (st', w') ->
  while_true (k + fuel) self format_type batch_size st w
  = while_true fuel self format_type batch_size st' w'.
Proof.
  induction k as [|k IH]; intros fuel st w st' w' H.
  - simpl in H. now inversion H.
  - change (S k + fuel)%nat with (S (k + fuel)). rewrite while_true_step.
    simpl in H.
    destruct (loop_body self format_type batch_size st w) as [[[st1|?]|?] w1];
      try discriminate.
    now apply IH.
Qed.

Section Pages.
Variables (self : WellsAPIClient) (batch_size : Z) (st : loop_state) (w : world).
Variables (r : response) (d rd : dict) (records : list value).

Let params := build_params self "json" (offset st) batch_size None.

Hypothesis fetched : next_outcome w params = Response r.
Hypothesis decoded : json r = inl (VDict d).
Hypothesis no_error : dict_mem "error" d = false.
Hypothesis has_result : dict_get "result" d = Some (VDict rd).
Hypothesis has_records : dict_get "records" rd = Some (VList records).

Lemma loop_body_full_page :
  records <> [] ->
  batch_size <= Z.of_nat (List.length records) ->
  loop_body self "json" batch_size st w
  = (Ok (Continue {| all_records := (all_records st ++ records)%list;
                     offset := offset st + batch_size |}),
     sending w params).
Proof.
  intros Hne Hlen.
  rewrite (loop_body_page self batch_size st w r d rd records
             fetched decoded no_error has_result has_records).
  fold params. destruct records as [|x l]; [congruence|].
  apply Z.ltb_ge in Hlen. now rewrite Hlen.
Qed.

Lemma loop_body_short_page :
  records <> [] ->
  Z.of_nat (List.length records) < batch_size ->
  loop_body self "json" batch_size st w
  = (Ok (Break (all_records st ++ records)%list), sending w params).
Proof.
  intros Hne Hlen.
  rewrite (loop_body_page self batch_size st w r d rd records
             fetched decoded no_error has_result has_records).
  fold params. destruct records as [|x l]; [congruence|].
  apply Z.ltb_lt in Hlen. now rewrite Hlen.
Qed.
End Pages.

(** A pass whose fetch fails prints the failure and ends the loop with the
    records gathered so far. *)
Lemma loop_body_failed self batch_size st w err :
  let params := build_params self "json" (offset st) batch_size None in
  fetch_fails (next_outcome w params) err ->
  exists w1,
    loop_body self "json" batch_size st w
    = (Ok (Break (all_records st)),
       printing w1 [Lit "Error at offset "; FmtInt (offset st); Lit ": ";
                    FmtVal (VStr err)])
    /\ upstream w1 = upstream w
    /\ sent w1 = (sent w ++ [params])%list
    /\ exists lines, printed w1 = (printed w ++ lines)%list.
Proof.
  intros params Hfail. unfold loop_body. unfold bind at 1.
  inversion Hfail as [msg Ho | r e Hj Ho]; subst err; symmetry in Ho.
  - rewrite (get_wells_data_request_failed self "json" (offset st) batch_size None w msg Ho).
    fold params. eexists. split; [reflexivity|]. simpl.
    repeat split. now exists [[Lit "Error making API request: "; Lit msg]].
  - rewrite (get_wells_data_json_decode_error self "json" (offset st) batch_size None
               w r e eq_refl Ho Hj).
    fold params. eexists. split; [reflexivity|]. simpl.
    repeat split.
    exists [[Lit "Error parsing JSON response: "; Lit e];
            [Lit "Response text: "; Lit (str_prefix 200 (text r)); Lit "..."]].
    now rewrite <- app_assoc.
Qed.

Lemma source_of_holds db : holds db (upstream (source_of db)).
Proof.
  intros k params off lim Ho Hl. simpl. rewrite Ho, Hl.
  eexists _, _, _. repeat split; reflexivity.
Qed.

Lemma source_of_honours_limit db lim :
  0 <= lim -> honours_limit lim (upstream (source_of db)).
Proof.
  intros Hpos k params items Hl. simpl. rewrite Hl.
  destruct (offset_of params) as [off|]; simpl; [|discriminate].
  intros H; inversion H; subst items. unfold page.
  rewrite length_firstn. lia.
Qed.

(** C2, as the code has it: when no page is longer than [batch_size], the
    state reached after any number of passes has its offset at the number
    of records retrieved, the next pass requests from exactly there, the
    requests sent so far are at 0, [batch_size], 2 * [batch_size], ..., and
    the window of an earlier request ends where a later one starts or
    before. *)
Theorem offsets_track_retrieved self format_type batch_size w0 k st w :
  0 < batch_size ->
  honours_limit batch_size (upstream w0) ->
  passes k self format_type batch_size initial_state w0 = Some (st, w) ->
  offset st = Z.of_nat (List.length (all_records st))
  /\ (forall step w',
        loop_body self format_type batch_size st w = (step, w') ->
        sent w'
        = (sent w ++ [build_params self format_type
                        (Z.of_nat (List.length (all_records st))) batch_size None])%list)
  /\ sent w
     = (sent w0 ++ map (fun i => build_params self format_type
                                   (Z.of_nat i * batch_size) batch_size None)
                       (seq 0 k))%list
  /\ (forall i j, (i < j)%nat ->
        Z.of_nat i * batch_size + batch_size <= Z.of_nat j * batch_size).
Proof.
  intros Hpos Hhon Hk.
  destruct (passes_invariant _ _ _ _ _ _ _ _ Hk) as (_ & _ & Hs & Hinv).
  specialize (Hinv Hhon eq_refl).
  split; [exact Hinv|]. split; [|split].
  - intros step w' Hb. rewrite <- Hinv.
    now destruct (loop_body_world _ _ _ _ _ _ _ Hb).
  - exact Hs.
  - intros i j Hij. nia.
Qed.

Lemma offsets_track_retrieved_witness :
  exists st w,
    passes 2 default_client "json" 2 initial_state (source_of five_records)
    = Some (st, w)
    /\ offset st = Z.of_nat (List.length (all_records st))
    /\ List.length (all_records st) = 4%nat.
Proof.
  eexists. eexists. split; [reflexivity|]. split; [|reflexivity].
  apply (offsets_track_retrieved default_client "json" 2 (source_of five_records) 2%nat
           _ _ ltac:(lia) (source_of_honours_limit five_records 2 ltac:(lia)) eq_refl).
Defined.

(** C2 as stated fails: a page longer than [batch_size] is appended whole
    while the offset moves by [batch_size] only. *)
Lemma oversize_page_breaks_offset_invariant :
  ~ (forall self format_type batch_size w0 k st w,
        0 < batch_size ->
        passes k self format_type batch_size initial_state w0 = Some (st, w) ->
        offset st = Z.of_nat (List.length (all_records st))).
Proof.
  intros H.
  specialize (H default_client "json" 2 (serving three_records) 1%nat _ _
                ltac:(lia) eq_refl).
  discriminate H.
Qed.

(** C3: against an upstream that holds 250 records, [get_all_wells_data]
    with [batch_size] 100 returns the 250 records in their order, having
    sent three requests, at offsets 0, 100 and 200, and printed nothing;
    three passes suffice. *)
Theorem fetch_all_250 self w0 db fuel :
  List.length db = 250%nat ->
  holds db (upstream w0) ->
  (3 <= fuel)%nat ->
  get_all_wells_data fuel self "json" 100 w0
  = (Ok (Some db),
     sending (sending (sending w0 (build_params self "json" 0 100 None))
                      (build_params self "json" 100 100 None))
             (build_params self "json" 200 100 None)).
Proof.
  intros Hlen Hholds Hfuel.
  destruct fuel as [|[|[|fuel]]]; try lia.
  assert (Hl0 : List.length (page db 0 100) = 100%nat)
    by (unfold page; rewrite length_firstn, length_skipn; simpl Z.to_nat; lia).
  assert (Hl1 : List.length (page db 100 100) = 100%nat)
    by (unfold page; rewrite length_firstn, length_skipn; simpl Z.to_nat; lia).
  assert (Hl2 : List.length (page db 200 100) = 50%nat)
    by (unfold page; rewrite length_firstn, length_skipn; simpl Z.to_nat; lia).
  assert (Hall : (page db 0 100 ++ page db 100 100 ++ page db 200 100)%list = db).
  { unfold page. simpl Z.to_nat.
    change (skipn 0 db) with db.
    transitivity (firstn 100 db ++ skipn 100 db)%list; [|apply firstn_skipn].
    f_equal.
    transitivity (firstn 100 (skipn 100 db) ++ skipn 100 (skipn 100 db))%list;
      [|apply firstn_skipn].
    f_equal. rewrite skipn_skipn. simpl Nat.add.
    apply firstn_all2. rewrite length_skipn. lia. }
  unfold get_all_wells_data.
  destruct (Hholds (List.length (sent w0)) (build_params self "json" 0 100 None)
                   0 100 eq_refl eq_refl) as (r0 & d0 & rd0 & Ho0 & Hj0 & He0 & Hr0 & Hp0).
  rewrite while_true_step.
  rewrite (loop_body_full_page self 100 initial_state w0 r0 d0 rd0 (page db 0 100)
             Ho0 Hj0 He0 Hr0 Hp0)
    by (try (intros E; rewrite E in Hl0; discriminate); rewrite Hl0; lia).
  set (w1 := sending w0 _). set (st1 := Build_loop_state _ _).
  destruct (Hholds (List.length (sent w1)) (build_params self "json" 100 100 None)
                   100 100 eq_refl eq_refl) as (r1 & d1 & rd1 & Ho1 & Hj1 & He1 & Hr1 & Hp1).
  rewrite while_true_step.
  rewrite (loop_body_full_page self 100 st1 w1 r1 d1 rd1 (page db 100 100)
             Ho1 Hj1 He1 Hr1 Hp1)
    by (try (intros E; rewrite E in Hl1; discriminate); rewrite Hl1; lia).
  set (w2 := sending w1 _). set (st2 := Build_loop_state _ _).
  destruct (Hholds (List.length (sent w2)) (build_params self "json" 200 100 None)
                   200 100 eq_refl eq_refl) as (r2 & d2 & rd2 & Ho2 & Hj2 & He2 & Hr2 & Hp2).
  rewrite while_true_step.
  rewrite (loop_body_short_page self 100 st2 w2 r2 d2 rd2 (page db 200 100)
             Ho2 Hj2 He2 Hr2 Hp2)
    by (try (intros E; rewrite E in Hl2; discriminate); rewrite Hl2; lia).
  subst st2 st1. unfold initial_state. cbn [all_records offset app].
  rewrite <- app_assoc, Hall. reflexivity.
Qed.

Lemma fetch_all_250_witness :
  get_all_wells_data 3 default_client "json" 100 (source_of all_250_records)
  = (Ok (Some all_250_records),
     sending (sending (sending (source_of all_250_records)
                               (build_params default_client "json" 0 100 None))
                      (build_params default_client "json" 100 100 None))
             (build_params default_client "json" 200 100 None)).
Proof.
  apply (fetch_all_250 default_client (source_of all_250_records) all_250_records 3
           eq_refl (source_of_holds all_250_records)).
  apply le_n.
Defined.

(** C4: when the first page is full and the second fetch fails, the loop
    ends at the failure and returns the records of the first page, which
    are not none; two requests were sent and the last line printed is the
    failure at the second offset. *)
Theorem partial_result_on_second_page_failure
    self batch_size w0 r (d rd : dict) records err fuel :
  let first := build_params self "json" 0 batch_size None in
  let second := build_params self "json" batch_size batch_size None in
  next_outcome w0 first = Response r ->
  json r = inl (VDict d) ->
  dict_mem "error" d = false ->
  dict_get "result" d = Some (VDict rd) ->
  dict_get "records" rd = Some (VList records) ->
  records <> [] ->
  batch_size <= Z.of_nat (List.length records) ->
  fetch_fails (next_outcome (sending w0 first) second) err ->
  (2 <= fuel)%nat ->
  exists w',
    get_all_wells_data fuel self "json" batch_size w0 = (Ok (Some records), w')
    /\ sent w' = (sent w0 ++ [first; second])%list
    /\ exists lines,
         printed w'
         = (printed w0 ++ lines
              ++ [[Lit "Error at offset "; FmtInt batch_size; Lit ": ";
                   FmtVal (VStr err)]])%list.
Proof.
  intros first second Ho Hj Herr Hres Hrec Hne Hlen Hfail Hfuel.
  destruct fuel as [|[|fuel]]; try lia.
  unfold get_all_wells_data. rewrite while_true_step.
  rewrite (loop_body_full_page self batch_size initial_state w0 r d rd records
             Ho Hj Herr Hres Hrec Hne Hlen).
  rewrite while_true_step.
  match goal with |- context [loop_body self "json" batch_size ?st ?w] =>
    destruct (loop_body_failed self batch_size st w err Hfail)
      as (w1 & Hb & _ & Hs & lines & Hp); rewrite Hb end.
  eexists. split; [reflexivity|]. simpl. rewrite Hs, Hp. simpl.
  split; [now rewrite <- app_assoc|].
  exists lines. now rewrite <- app_assoc.
Qed.

Lemma partial_result_on_second_page_failure_witness :
  exists w',
    get_all_wells_data 2 default_client "json" 2 (unreachable_after_first five_records)
    = (Ok (Some (map numbered (seq 1 2))), w')
    /\ sent w' = [build_params default_client "json" 0 2 None;
                  build_params default_client "json" 2 2 None]
    /\ exists lines,
         printed w'
         = (lines ++ [[Lit "Error at offset "; FmtInt 2; Lit ": ";
                       FmtVal (VStr "HTTPSConnectionPool: Read timed out.")]])%list.
Proof.
  apply (partial_result_on_second_page_failure
           default_client 2 (unreachable_after_first five_records)
           (json_response (VDict [("result",
                                   VDict [("records", VList (map numbered (seq 1 2)))])]))
           [("result", VDict [("records", VList (map numbered (seq 1 2)))])]
           [("records", VList (map numbered (seq 1 2)))]
           (map numbered (seq 1 2))
           "HTTPSConnectionPool: Read timed out." 2
           eq_refl eq_refl eq_refl eq_refl eq_refl).
  - discriminate.
  - simpl. lia.
  - apply transport_fails.
  - apply le_n.
Defined.

(** C10: after a JSON fetch that decoded to a mapping without [error], a
    filter that returns gives back that mapping with [records] set to the
    list the comprehension kept, [count] set to its length, and every
    other key as fetched. *)
Theorem filters_touch_only_records_and_count self w r (d : dict) :
  next_outcome w (build_params self "json" 0 1000 None) = Response r ->
  json r = inl (VDict d) ->
  dict_mem "error" d = false ->
  (forall state_name field m w',
      dict_get (lower state_name) state_filters = Some field ->
      filter_by_state self state_name "json" w = (Ok m, w') ->
      exists items filtered,
        fetched_items (VDict d) = Ok items
        /\ comprehension (field_gt0 field) items = Ok filtered
        /\ only_records_and_count d filtered m)
  /\ (forall (offshore : bool) m w',
        filter_by_offshore self offshore "json" w = (Ok m, w') ->
        exists items filtered,
          fetched_items (VDict d) = Ok items
          /\ comprehension (if offshore then field_gt0 "offshore"
                            else field_eq0 "offshore") items = Ok filtered
          /\ only_records_and_count d filtered m).
Proof.
  intros Ho Hj Herr. split.
  - intros state_name field m w' Hfield H.
    rewrite (filter_by_state_json self w r (VDict d) Ho Hj state_name field Hfield) in H.
    inversion H as [[Hm Hw]]. now apply client_side_frame.
  - intros offshore m w' H.
    rewrite (filter_by_offshore_json self w r (VDict d) Ho Hj offshore) in H.
    inversion H as [[Hm Hw]]. now apply client_side_frame.
Qed.

Lemma filters_touch_only_records_and_count_witness :
  only_records_and_count
    [("total", VInt 2);
     ("records", VList [record_of "gujarat" (VStr "3547");
                        record_of "gujarat" (VStr "0")])]
    [record_of "gujarat" (VStr "3547")]
    (VDict [("total", VInt 2);
            ("records", VList [record_of "gujarat" (VStr "3547")]);
            ("count", VInt 1)]).
Proof.
  destruct (filters_touch_only_records_and_count
              default_client (serving gujarat_parsed) (json_response gujarat_parsed)
              _ eq_refl eq_refl eq_refl) as [Hstate _].
  destruct (Hstate "Gujarat" "gujarat" _ _ eq_refl eq_refl)
    as (items & filtered & Hi & Hc & Hframe).
  inversion Hi; subst items. inversion Hc; subst filtered. exact Hframe.
Defined.

Lemma non_json_filters_are_identity_witness :
  filter_by_state default_client "Gujarat" "csv"
    (serving_text "status,gujarat,offshore")
  = get_wells_data default_client "csv" 0 1000 None
      (serving_text "status,gujarat,offshore")
  /\ filter_by_offshore default_client true "csv"
       (serving_text "status,gujarat,offshore")
     = get_wells_data default_client "csv" 0 1000 None
         (serving_text "status,gujarat,offshore").
Proof.
  destruct (non_json_filters_are_identity default_client "csv"
              (serving_text "status,gujarat,offshore"))
    as [Hstate Hoffshore]; [discriminate|].
  split; [apply Hstate; simpl; auto | apply Hoffshore].
Defined.

(** * Further properties of the client and of its callers *)

(** ** The query parameters *)

Lemma length_append (a b : string) :
  String.length (a ++ b) = (String.length a + String.length b)%nat.
Proof. induction a; simpl; congruence. Qed.

Lemma append_inj_r (a b t : string) :
  String.length t = 1%nat -> a ++ t = b ++ t -> a = b.
Proof.
  intros Ht. revert b.
  induction a as [|c a IH]; intros [|c' b] H; simpl in H.
  - reflexivity.
  - exfalso. apply (f_equal String.length) in H. simpl in H.
    rewrite length_append in H. lia.
  - exfalso. apply (f_equal String.length) in H. simpl in H.
    rewrite length_append in H. lia.
  - inversion H. f_equal. now apply IH.
Qed.

Lemma filter_key_inj k k' : filter_key k = filter_key k' -> k = k'.
Proof.
  unfold filter_key. simpl. intros H. inversion H as [H'].
  now apply (append_inj_r k k' "]").
Qed.

Lemma add_filters_other key (fs : dict) : forall ps : request,
  (forall k, In k (dict_keys fs) -> filter_key k <> key) ->
  dict_get key
    (fold_left (fun ps kv => dict_set ("filters[" ++ fst kv ++ "]") (snd kv) ps) fs ps)
  = dict_get key ps.
Proof.
  induction fs as [|[k v] fs IH]; intros ps H; simpl; [reflexivity|].
  rewrite IH by (intros k' Hk'; apply H; now right).
  apply dict_get_set_other. intros E. apply (H k (or_introl eq_refl)).
  now rewrite E.
Qed.

(** X1: whatever the filters, the request carries the key, the format, the
    offset and the limit it was asked with: a filter cannot overwrite them. *)
Theorem build_params_keeps_paging self format_type offset limit filters :
  let params := build_params self format_type offset limit filters in
  dict_get "api-key" params = Some (VStr (api_key self))
  /\ dict_get "format" params = Some (VStr format_type)
  /\ offset_of params = Some offset
  /\ limit_of params = Some limit.
Proof.
  unfold build_params, offset_of, limit_of. destruct filters as [fs|]; simpl.
  - rewrite !add_filters_other by (intros k _; unfold filter_key; simpl; discriminate).
    simpl. auto.
  - auto.
Qed.

(** X2: every entry of the filters, a dictionary and so of distinct keys,
    is in the request under [filters[<key>]] with its value. *)
Theorem build_params_carries_filters self format_type offset limit (fs : dict) k v :
  NoDup (dict_keys fs) ->
  In (k, v) fs ->
  dict_get (filter_key k) (build_params self format_type offset limit (Some fs))
  = Some v.
Proof.
  unfold build_params.
  generalize [("api-key", VStr (api_key self)); ("format", VStr format_type);
              ("offset", VInt offset); ("limit", VInt limit)].
  induction fs as [|[k0 v0] fs IH]; intros ps Hnd Hin; [destruct Hin|].
  simpl in Hnd. inversion Hnd as [|? ? Hnotin Hnd']; subst.
  destruct Hin as [E|Hin].
  - inversion E; subst k0 v0. simpl.
    rewrite add_filters_other.
    + apply dict_get_set_same.
    + intros k' Hk' E'. apply filter_key_inj in E'. now subst k'.
  - simpl. now apply IH.
Qed.

Lemma build_params_carries_filters_witness :
  dict_get "filters[offshore]"
    (build_params default_client "json" 0 3
       (Some [("gujarat", VInt 1); ("offshore", VInt 1)]))
  = Some (VInt 1).
Proof.
  apply (build_params_carries_filters default_client "json" 0 3
           [("gujarat", VInt 1); ("offshore", VInt 1)] "offshore" (VInt 1)).
  - repeat constructor; simpl; intuition discriminate.
  - simpl. auto.
Defined.

(** ** Names of states *)

Lemma lower_ascii_idempotent c : lower_ascii (lower_ascii c) = lower_ascii c.
Proof. destruct c as [[] [] [] [] [] [] [] []]; reflexivity. Qed.

(** [lower_ascii] changes no byte into, or out of, a byte beyond ASCII. *)
Lemma lower_ascii_byte n c :
  (128 <= n)%nat -> is_byte n (lower_ascii c) = is_byte n c.
Proof.
  intros Hn. unfold is_byte, lower_ascii, is_upper.
  assert (Hc : (nat_of_ascii c < 256)%nat) by apply nat_ascii_bounded.
  destruct (Nat.leb 65 (nat_of_ascii c) && Nat.leb (nat_of_ascii c) 90)%bool eqn:E;
    [|reflexivity].
  apply andb_true_iff in E as [E1 E2].
  apply Nat.leb_le in E1. apply Nat.leb_le in E2.
  rewrite nat_ascii_embedding by lia.
  destruct (Nat.eqb_spec (nat_of_ascii c + 32) n), (Nat.eqb_spec (nat_of_ascii c) n);
    try reflexivity; lia.
Qed.

(** The two ways [lower] goes on from a first character. *)
Lemma lower_kelvin c c1 c2 rest :
  (is_byte 226 c && is_byte 132 c1 && is_byte 170 c2)%bool = true ->
  lower (String c (String c1 (String c2 rest))) = String "k" (lower rest).
Proof. intros H. simpl. now rewrite H. Qed.

Lemma lower_plain c rest :
  (is_byte 226 c && begins_with 132 170 rest)%bool = false ->
  lower (String c rest) = String (lower_ascii c) (lower rest).
Proof.
  intros H. destruct rest as [|c1 [|c2 rest]]; try reflexivity.
  simpl in *. rewrite <- andb_assoc. now rewrite H.
Qed.

(** What [lower] gives begins with the bytes 132, 170 only where the
    text did. *)
Lemma lower_begins_with rest :
  begins_with 132 170 (lower rest) = begins_with 132 170 rest.
Proof.
  assert (Hhead : forall n c r,
             (128 <= n)%nat -> n <> 226%nat ->
             match lower (String c r) with
             | String h _ => is_byte n h = is_byte n c
             | EmptyString => False
             end).
  { intros n c r Hn Hne.
    destruct (is_byte 226 c && begins_with 132 170 r)%bool eqn:E.
    - destruct r as [|c1 [|c2 r]]; simpl in E;
        try (rewrite andb_false_r in E; discriminate).
      rewrite andb_assoc in E. rewrite (lower_kelvin _ _ _ _ E).
      apply andb_true_iff in E as [E _]. apply andb_true_iff in E as [E _].
      unfold is_byte in *. apply Nat.eqb_eq in E. rewrite E.
      change (nat_of_ascii "k") with 107%nat.
      destruct (Nat.eqb_spec 107 n), (Nat.eqb_spec 226 n);
        try reflexivity; try lia; congruence.
    - rewrite (lower_plain _ _ E). now apply lower_ascii_byte. }
  destruct rest as [|c1 [|c2 rest]].
  - reflexivity.
  - reflexivity.
  - pose proof (Hhead 132%nat c1 (String c2 rest) ltac:(lia) ltac:(lia)) as H1.
    destruct (is_byte 226 c1 && begins_with 132 170 (String c2 rest))%bool eqn:E.
    + destruct rest as [|c3 rest]; simpl in E;
        try (rewrite andb_false_r in E; discriminate).
      rewrite andb_assoc in E. rewrite (lower_kelvin _ _ _ _ E).
      apply andb_true_iff in E as [E _]. apply andb_true_iff in E as [E _].
      unfold is_byte in E. apply Nat.eqb_eq in E.
      destruct (lower rest) as [|h t]; unfold begins_with, is_byte; rewrite E;
        reflexivity.
    + rewrite (lower_plain _ _ E).
      pose proof (Hhead 170%nat c2 rest ltac:(lia) ltac:(lia)) as H2.
      destruct (lower (String c2 rest)) as [|h t]; [destruct H2|].
      simpl. now rewrite H2, lower_ascii_byte by lia.
Qed.

Lemma lower_idempotent s : lower (lower s) = lower s.
Proof.
  assert (H : forall n s, (String.length s <= n)%nat -> lower (lower s) = lower s).
  { clear s. induction n as [|n IH]; intros s Hlen.
    - destruct s; [reflexivity | simpl in Hlen; lia].
    - destruct s as [|c rest]; [reflexivity|]. simpl in Hlen.
      destruct (is_byte 226 c && begins_with 132 170 rest)%bool eqn:E.
      + destruct rest as [|c1 [|c2 rest]]; simpl in E;
          try (rewrite andb_false_r in E; discriminate).
        rewrite andb_assoc in E. rewrite (lower_kelvin _ _ _ _ E).
        rewrite lower_plain by reflexivity.
        simpl in Hlen. rewrite IH by lia. reflexivity.
      + rewrite (lower_plain _ _ E). rewrite lower_plain.
        * rewrite lower_ascii_idempotent, IH by lia. reflexivity.
        * now rewrite lower_ascii_byte, lower_begins_with by lia. }
  now apply (H (String.length s)).
Qed.

(** X3: [filter_by_state] does not tell a name from its lower-case form:
    the two calls do the same in every world and format. *)
Theorem filter_by_state_ignores_case self state_name format_type w :
  filter_by_state self state_name format_type w
  = filter_by_state self (lower state_name) format_type w.
Proof.
  unfold filter_by_state. now rewrite lower_idempotent.
Qed.

(** ** [safe_int] *)

(** X4: [safe_int] never returns text, and applying it twice is applying
    it once. *)
Theorem safe_int_never_text v :
  (forall s, safe_int v <> VStr s) /\ safe_int (safe_int v) = safe_int v.
Proof.
  destruct v; simpl; try (split; [discriminate | reflexivity]).
  destruct (float_of_string s); split; (discriminate || reflexivity).
Qed.

(** ** Pagination against an upstream that holds the records *)

Lemma page_of_rest (acc rest : list value) batch_size :
  page (acc ++ rest) (Z.of_nat (List.length acc)) batch_size
  = firstn (Z.to_nat batch_size) rest.
Proof.
  unfold page. rewrite Nat2Z.id, skipn_app, skipn_all, Nat.sub_diag. reflexivity.
Qed.

Lemma div_step (n b : nat) : (0 < b <= n)%nat -> (n / b = S ((n - b) / b))%nat.
Proof.
  intros H. replace n with ((n - b) + 1 * b)%nat at 1 by lia.
  rewrite Nat.div_add by lia. lia.
Qed.

(** From a state whose offset counts the records gathered, the loop
    gathers the rest, one request per [batch_size] records and one more. *)
Lemma while_true_drains self batch_size db :
  0 < batch_size ->
  forall fuel acc rest w,
    holds db (upstream w) ->
    db = (acc ++ rest)%list ->
    (List.length rest / Z.to_nat batch_size < fuel)%nat ->
    exists w',
      while_true fuel self "json" batch_size
        {| all_records := acc; offset := Z.of_nat (List.length acc) |} w
      = (Ok (Some db), w')
      /\ upstream w' = upstream w
      /\ sent w'
         = (sent w
              ++ map (fun i => build_params self "json"
                                 (Z.of_nat (List.length acc) + Z.of_nat i * batch_size)
                                 batch_size None)
                     (seq 0 (S (List.length rest / Z.to_nat batch_size))))%list
      /\ printed w' = printed w.
Proof.
  intros Hpos. set (b := Z.to_nat batch_size).
  assert (Hb : (0 < b)%nat) by (unfold b; lia).
  assert (Hbs : batch_size = Z.of_nat b) by (unfold b; lia).
  induction fuel as [|fuel IH]; intros acc rest w Hholds Hdb Hfuel; [lia|].
  set (st := {| all_records := acc; offset := Z.of_nat (List.length acc) |}).
  destruct (Hholds (List.length (sent w)) (build_params self "json" (offset st) batch_size None)
                   (Z.of_nat (List.length acc)) batch_size eq_refl eq_refl)
    as (r & d & rd & Ho & Hj & He & Hr & Hp).
  rewrite Hdb, page_of_rest in Hp. fold b in Hp.
  rewrite while_true_step.
  destruct (Nat.lt_ge_cases (List.length rest) b) as [Hshort|Hfull].
  - (* the last page: short, maybe empty *)
    rewrite firstn_all2 in Hp by lia.
    rewrite (Nat.div_small _ _ Hshort). simpl seq. simpl map. rewrite Z.add_0_r.
    destruct rest as [|x rest'].
    + rewrite (loop_body_page self batch_size st w r d rd [] Ho Hj He Hr Hp).
      rewrite app_nil_r in Hdb. subst acc.
      eexists. split; [|split; [|split]]; reflexivity.
    + rewrite (loop_body_short_page self batch_size st w r d rd (x :: rest')
                 Ho Hj He Hr Hp) by (try discriminate; lia).
      subst db. eexists. split; [|split; [|split]]; reflexivity.
  - (* a full page: the loop goes on *)
    assert (Hlen : List.length (firstn b rest) = b) by (rewrite length_firstn; lia).
    rewrite (loop_body_full_page self batch_size st w r d rd (firstn b rest)
               Ho Hj He Hr Hp)
      by (try (intros E; rewrite E in Hlen; simpl in Hlen; lia); lia).
    cbn [all_records offset st].
    replace (Z.of_nat (List.length acc) + batch_size)
      with (Z.of_nat (List.length (acc ++ firstn b rest)))
      by (rewrite length_app, Hlen; lia).
    destruct (IH (acc ++ firstn b rest)%list (skipn b rest)
                 (sending w (build_params self "json" (offset st) batch_size None)))
      as (w' & Hrun & Hu & Hs & Hpr).
    + exact Hholds.
    + now rewrite <- app_assoc, firstn_skipn.
    + rewrite length_skipn. rewrite (div_step (List.length rest) b) in Hfuel by lia. lia.
    + exists w'. split; [exact Hrun|]. split; [exact Hu|]. split; [|exact Hpr].
      rewrite Hs. cbn [sent sending]. rewrite <- app_assoc. f_equal.
      rewrite length_skipn, (div_step (List.length rest) b) by lia.
      change (seq 0 (S (S ((List.length rest - b) / b))))
        with (0%nat :: seq 1 (S ((List.length rest - b) / b))).
      rewrite <- seq_shift. cbn [map app]. rewrite map_map, Z.add_0_r.
      f_equal. apply map_ext. intros i. f_equal.
      rewrite length_app, Hlen. lia.
Qed.

(** X5: against an upstream that holds [db], [get_all_wells_data] with a
    positive [batch_size] returns [db], whole and in order, after one
    request at each multiple of [batch_size] up to the length of [db], and
    prints nothing; one pass more than full pages suffices. *)
Theorem fetch_all_complete self w0 db batch_size fuel :
  0 < batch_size ->
  holds db (upstream w0) ->
  (List.length db / Z.to_nat batch_size < fuel)%nat ->
  exists w',
    get_all_wells_data fuel self "json" batch_size w0 = (Ok (Some db), w')
    /\ sent w'
       = (sent w0
            ++ map (fun i => build_params self "json" (Z.of_nat i * batch_size)
                               batch_size None)
                   (seq 0 (S (List.length db / Z.to_nat batch_size))))%list
    /\ printed w' = printed w0.
Proof.
  intros Hpos Hholds Hfuel.
  destruct (while_true_drains self batch_size db Hpos fuel [] db w0 Hholds eq_refl Hfuel)
    as (w' & Hrun & _ & Hs & Hp).
  exists w'. split; [exact Hrun|]. split; [exact Hs|exact Hp].
Qed.

Lemma fetch_all_complete_witness :
  exists w',
    get_all_wells_data 3 default_client "json" 2 (source_of five_records)
    = (Ok (Some five_records), w')
    /\ sent w'
       = [build_params default_client "json" 0 2 None;
          build_params default_client "json" 2 2 None;
          build_params default_client "json" 4 2 None]
    /\ printed w' = [].
Proof.
  apply (fetch_all_complete default_client (source_of five_records) five_records 2 3
           ltac:(lia) (source_of_holds five_records)).
  simpl. lia.
Defined.

(** ** The loop against other upstreams *)

(** X6: nothing bounds the loop. Against an upstream whose every answer is
    a full page, as one that ignores the offset, no number of passes ends
    it: each pass sends one more request. *)
Theorem get_all_wells_data_never_ends self batch_size fuel w0 :
  always_full batch_size (upstream w0) ->
  exists w',
    get_all_wells_data fuel self "json" batch_size w0 = (Ok None, w')
    /\ List.length (sent w') = (List.length (sent w0) + fuel)%nat.
Proof.
  unfold get_all_wells_data. generalize initial_state. revert w0.
  induction fuel as [|fuel IH]; intros w st Hfull.
  - exists w. split; [reflexivity | lia].
  - destruct (Hfull (List.length (sent w))
                    (build_params self "json" (offset st) batch_size None))
      as (r & d & rd & records & Ho & Hj & He & Hr & Hp & Hne & Hlen).
    rewrite while_true_step.
    rewrite (loop_body_full_page self batch_size st w r d rd records
               Ho Hj He Hr Hp Hne Hlen).
    destruct (IH (sending w (build_params self "json" (offset st) batch_size None))
                 {| all_records := (all_records st ++ records)%list;
                    offset := offset st + batch_size |} Hfull)
      as (w' & Hrun & Hs).
    exists w'. split; [exact Hrun|].
    rewrite Hs. cbn [sent sending]. rewrite length_app. simpl. lia.
Qed.

Lemma get_all_wells_data_never_ends_witness :
  exists w',
    get_all_wells_data 7 default_client "json" 3 (serving three_records) = (Ok None, w')
    /\ List.length (sent w') = 7%nat.
Proof.
  apply (get_all_wells_data_never_ends default_client 3 7 (serving three_records)).
  intros k params. simpl.
  eexists _, _, _, _. repeat (split; [reflexivity|]).
  split; [discriminate | simpl; lia].
Defined.

(** X7: a first fetch that fails gives the empty list, the value an
    upstream without records gives: the failure is in the printed lines
    only. *)
Theorem first_fetch_failure_returns_empty self batch_size fuel w0 w1 err :
  fetch_fails (next_outcome w0 (build_params self "json" 0 batch_size None)) err ->
  holds [] (upstream w1) ->
  (1 <= fuel)%nat ->
  fst (get_all_wells_data fuel self "json" batch_size w0) = Ok (Some [])
  /\ fst (get_all_wells_data fuel self "json" batch_size w1) = Ok (Some [])
  /\ exists lines,
       printed (snd (get_all_wells_data fuel self "json" batch_size w0))
       = (printed w0 ++ lines
            ++ [[Lit "Error at offset "; FmtInt 0; Lit ": "; FmtVal (VStr err)]])%list.
Proof.
  intros Hfail Hholds Hfuel. destruct fuel as [|fuel]; [lia|].
  unfold get_all_wells_data. rewrite !while_true_step.
  destruct (loop_body_failed self batch_size initial_state w0 err Hfail)
    as (wf & Hb & _ & _ & lines & Hp).
  rewrite Hb.
  destruct (Hholds (List.length (sent w1)) (build_params self "json" 0 batch_size None)
                   0 batch_size eq_refl eq_refl)
    as (r & d & rd & Ho & Hj & He & Hr & Hrec).
  assert (Hempty : page [] 0 batch_size = []) by (unfold page; now rewrite firstn_nil).
  rewrite Hempty in Hrec.
  rewrite (loop_body_page self batch_size initial_state w1 r d rd [] Ho Hj He Hr Hrec).
  split; [reflexivity|]. split; [reflexivity|].
  exists lines. simpl. now rewrite Hp, <- app_assoc.
Qed.

Lemma first_fetch_failure_returns_empty_witness :
  fst (get_all_wells_data 1 default_client "json" 100 unreachable) = Ok (Some [])
  /\ fst (get_all_wells_data 1 default_client "json" 100 (source_of [])) = Ok (Some []).
Proof.
  destruct (first_fetch_failure_returns_empty default_client 100 1
              unreachable (source_of []) "HTTPSConnectionPool: Read timed out."
              (transport_fails _) (source_of_holds []) (le_n 1))
    as (Hfail & Hempty & _).
  split; [exact Hfail | exact Hempty].
Defined.

(** X8: a decoded mapping that has its records at the top level, as the
    filters read them, and no [result] gives [get_all_wells_data] nothing:
    it returns the empty list after one request, whatever [records] holds. *)
Theorem top_level_records_are_not_paged self batch_size fuel w0 r (d : dict) :
  next_outcome w0 (build_params self "json" 0 batch_size None) = Response r ->
  json r = inl (VDict d) ->
  dict_mem "error" d = false ->
  dict_get "result" d = None ->
  (1 <= fuel)%nat ->
  get_all_wells_data fuel self "json" batch_size w0
  = (Ok (Some []), sending w0 (build_params self "json" 0 batch_size None)).
Proof.
  intros Ho Hj He Hr Hfuel. destruct fuel as [|fuel]; [lia|].
  unfold get_all_wells_data. rewrite while_true_step.
  unfold loop_body. unfold bind at 1. change (offset initial_state) with 0.
  rewrite (get_wells_data_decoded self "json" 0 batch_size None w0 r (VDict d)
             eq_refl Ho Hj).
  unfold bind, lift, ret. simpl. rewrite He, Hr. reflexivity.
Qed.

Lemma top_level_records_are_not_paged_witness :
  get_all_wells_data 1 default_client "json" 100 (serving gujarat_parsed)
  = (Ok (Some []),
     sending (serving gujarat_parsed) (build_params default_client "json" 0 100 None)).
Proof.
  apply (top_level_records_are_not_paged default_client 100 1 (serving gujarat_parsed)
           (json_response gujarat_parsed) _ eq_refl eq_refl eq_refl eq_refl (le_n 1)).
Defined.

(** X9: in a format that is neither JSON nor XML the loop makes one
    request and returns the body as the only item of the list; when the
    body has the text [error] in it, the loop raises [TypeError] instead. *)
Theorem get_all_wells_data_raw_text self format_type batch_size fuel w0 r :
  format_type <> "json" ->
  format_type <> "xml" ->
  next_outcome w0 (build_params self format_type 0 batch_size None) = Response r ->
  (1 <= fuel)%nat ->
  get_all_wells_data fuel self format_type batch_size w0
  = (if str_contains "error" (text r) then Raise TypeError
     else Ok (Some [VStr (text r)]),
     sending w0 (build_params self format_type 0 batch_size None)).
Proof.
  intros Hj Hx Ho Hfuel. destruct fuel as [|fuel]; [lia|].
  apply String.eqb_neq in Hj. apply String.eqb_neq in Hx.
  unfold get_all_wells_data. rewrite while_true_step.
  unfold loop_body, get_wells_data, next_outcome in *.
  unfold bind, requests_get, lift, ret. cbn [offset initial_state all_records].
  rewrite Ho. cbv beta iota. rewrite Hj, Hx. simpl.
  destruct (str_contains "error" (text r)); reflexivity.
Qed.

Lemma get_all_wells_data_raw_text_witness :
  fst (get_all_wells_data 1 default_client "csv" 100
         (serving_text "status,gujarat,offshore"))
  = Ok (Some [VStr "status,gujarat,offshore"])
  /\ fst (get_all_wells_data 1 default_client "csv" 100
            (serving_text "status,remarks,Shut-in wells,sensor error"))
     = Raise TypeError.
Proof.
  split.
  - now rewrite (get_all_wells_data_raw_text default_client "csv" 100 1
                   (serving_text "status,gujarat,offshore") _
                   ltac:(discriminate) ltac:(discriminate) eq_refl (le_n 1)).
  - now rewrite (get_all_wells_data_raw_text default_client "csv" 100 1
                   (serving_text "status,remarks,Shut-in wells,sensor error") _
                   ltac:(discriminate) ltac:(discriminate) eq_refl (le_n 1)).
Defined.

(** ** The filters, further *)

(** X10: a decoded mapping with its records under [result], as
    [get_all_wells_data] reads them, and none at the top level comes back
    from either filter with an empty [records] and a [count] of 0 added and
    nothing else changed. *)
Theorem nested_records_are_not_filtered self w r (d : dict) :
  next_outcome w (build_params self "json" 0 1000 None) = Response r ->
  json r = inl (VDict d) ->
  dict_mem "error" d = false ->
  dict_get "records" d = None ->
  let emptied := VDict (dict_set "count" (VInt 0) (dict_set "records" (VList []) d)) in
  (forall state_name,
      In (lower state_name) known_states ->
      fst (filter_by_state self state_name "json" w) = Ok emptied)
  /\ (forall offshore,
        fst (filter_by_offshore self offshore "json" w) = Ok emptied).
Proof.
  intros Ho Hj He Hrec emptied.
  assert (Hside : forall cond, client_side (VDict d) cond = Ok emptied).
  { intros cond. unfold client_side, fetched_items. simpl. now rewrite He, Hrec. }
  split.
  - intros state_name Hin. apply known_state_field in Hin as [_ [field Hfield]].
    rewrite (filter_by_state_json self w r (VDict d) Ho Hj state_name field Hfield).
    apply Hside.
  - intros offshore.
    rewrite (filter_by_offshore_json self w r (VDict d) Ho Hj offshore).
    apply Hside.
Qed.

Lemma nested_records_are_not_filtered_witness :
  fst (filter_by_state default_client "gujarat" "json" (serving three_records))
  = Ok (VDict [("result", VDict [("records", VList (map numbered (seq 1 3)))]);
               ("records", VList []);
               ("count", VInt 0)]).
Proof.
  destruct (nested_records_are_not_filtered default_client (serving three_records)
              (json_response three_records) _ eq_refl eq_refl eq_refl eq_refl)
    as [Hstate _].
  apply (Hstate "gujarat"). simpl. auto.
Defined.

(** X11: a response with an [error] key comes back from the filters as it
    was fetched, its records unread: a decoded document that has the key,
    and the mapping [get_wells_data] makes of a failed fetch. *)
Theorem filters_return_errors_unchanged self w :
  let params := build_params self "json" 0 1000 None in
  (forall r (d : dict),
      next_outcome w params = Response r ->
      json r = inl (VDict d) ->
      dict_mem "error" d = true ->
      (forall state_name,
          In (lower state_name) known_states ->
          filter_by_state self state_name "json" w = (Ok (VDict d), sending w params))
      /\ (forall offshore,
            filter_by_offshore self offshore "json" w = (Ok (VDict d), sending w params)))
  /\ (forall msg,
        next_outcome w params = RequestException msg ->
        (forall state_name,
            In (lower state_name) known_states ->
            fst (filter_by_state self state_name "json" w)
            = Ok (VDict [("error", VStr msg)]))
        /\ (forall offshore,
              fst (filter_by_offshore self offshore "json" w)
              = Ok (VDict [("error", VStr msg)]))).
Proof.
  intros params. split.
  - intros r d Ho Hj He.
    assert (Hside : forall cond, client_side (VDict d) cond = Ok (VDict d)).
    { intros cond. unfold client_side. simpl. now rewrite He. }
    split.
    + intros state_name Hin. apply known_state_field in Hin as [_ [field Hfield]].
      rewrite (filter_by_state_json self w r (VDict d) Ho Hj state_name field Hfield).
      now rewrite Hside.
    + intros offshore.
      rewrite (filter_by_offshore_json self w r (VDict d) Ho Hj offshore).
      now rewrite Hside.
  - intros msg Ho. split.
    + intros state_name Hin. apply known_state_field in Hin as [Hmem _].
      unfold filter_by_state. rewrite Hmem. change (negb true) with false.
      cbv iota. unfold bind at 1.
      now rewrite (get_wells_data_request_failed self "json" 0 1000 None w msg Ho).
    + intros offshore. unfold filter_by_offshore. unfold bind at 1.
      now rewrite (get_wells_data_request_failed self "json" 0 1000 None w msg Ho).
Qed.

Lemma filters_return_errors_unchanged_witness :
  filter_by_state default_client "gujarat" "json" (serving quota_exceeded)
  = (Ok quota_exceeded,
     sending (serving quota_exceeded) (build_params default_client "json" 0 1000 None))
  /\ fst (filter_by_offshore default_client true "json" unreachable)
     = Ok (VDict [("error", VStr "HTTPSConnectionPool: Read timed out.")]).
Proof.
  destruct (filters_return_errors_unchanged default_client (serving quota_exceeded))
    as [Hdoc _].
  destruct (filters_return_errors_unchanged default_client unreachable)
    as [_ Hfail].
  split.
  - destruct (Hdoc (json_response quota_exceeded) _ eq_refl eq_refl eq_refl)
      as [Hstate _].
    apply (Hstate "gujarat"). simpl. auto.
  - destruct (Hfail _ eq_refl) as [_ Hoff]. apply Hoff.
Defined.

Lemma filter_all_pass {A} (p : A -> bool) l :
  (forall x, In x l -> p x = true) -> filter p l = l.
Proof.
  induction l as [|x l IH]; intros H; simpl; [reflexivity|].
  rewrite (H x (or_introl eq_refl)). f_equal. apply IH. intros y Hy. apply H. now right.
Qed.

(** A comprehension that returned kept items that pass its condition, no
    more than it was given, and finds nothing to drop among them. *)
Lemma comprehension_kept cond items kept :
  comprehension cond items = Ok kept ->
  (forall x, In x kept -> In x items /\ cond x = Ok true)
  /\ comprehension cond kept = Ok kept
  /\ (List.length kept <= List.length items)%nat.
Proof.
  intros H. destruct (comprehension_ok cond items kept H) as (p & Hp & ->).
  assert (Hin : forall x, In x (filter p items) -> In x items /\ cond x = Ok true).
  { intros x Hx. apply filter_In in Hx as [Hx Hpx]. split; [exact Hx|].
    now rewrite (Hp x Hx), Hpx. }
  split; [exact Hin|]. split; [|apply filter_length_le].
  rewrite (comprehension_filter cond (fun _ => true)).
  - now rewrite filter_all_pass.
  - intros x Hx. now destruct (Hin x Hx).
Qed.

(** X12: the records a state filter returns all have a positive count in
    the state's field, they are among the records fetched and no more than
    them, [count] is their number, and filtering them again drops none. *)
Theorem filter_by_state_result self w r (d : dict) state_name field m w' :
  next_outcome w (build_params self "json" 0 1000 None) = Response r ->
  json r = inl (VDict d) ->
  dict_mem "error" d = false ->
  dict_get (lower state_name) state_filters = Some field ->
  filter_by_state self state_name "json" w = (Ok m, w') ->
  exists items kept,
    fetched_items (VDict d) = Ok items
    /\ py_get m "records" VNone = Ok (VList kept)
    /\ py_get m "count" VNone = Ok (VInt (Z.of_nat (List.length kept)))
    /\ (forall x, In x kept -> In x items /\ field_gt0 field x = Ok true)
    /\ (List.length kept <= List.length items)%nat
    /\ comprehension (field_gt0 field) kept = Ok kept.
Proof.
  intros Ho Hj He Hfield Hrun.
  rewrite (filter_by_state_json self w r (VDict d) Ho Hj state_name field Hfield) in Hrun.
  inversion Hrun as [[Hm Hw]].
  destruct (client_side_frame d _ m He Hm)
    as (items & kept & Hi & Hc & d' & -> & Hr & Hn & _).
  destruct (comprehension_kept _ _ _ Hc) as (Hin & Hagain & Hlen).
  exists items, kept. simpl. rewrite Hr, Hn. auto 10.
Qed.

Lemma filter_by_state_result_witness :
  exists items kept,
    fetched_items gujarat_parsed = Ok items
    /\ py_get (VDict [("total", VInt 2);
                      ("records", VList [record_of "gujarat" (VStr "3547")]);
                      ("count", VInt 1)]) "records" VNone = Ok (VList kept)
    /\ py_get (VDict [("total", VInt 2);
                      ("records", VList [record_of "gujarat" (VStr "3547")]);
                      ("count", VInt 1)]) "count" VNone
       = Ok (VInt (Z.of_nat (List.length kept)))
    /\ (forall x, In x kept -> In x items /\ field_gt0 "gujarat" x = Ok true)
    /\ (List.length kept <= List.length items)%nat
    /\ comprehension (field_gt0 "gujarat") kept = Ok kept.
Proof.
  apply (filter_by_state_result default_client (serving gujarat_parsed)
           (json_response gujarat_parsed) _ "Gujarat" "gujarat" _ _
           eq_refl eq_refl eq_refl eq_refl eq_refl).
Defined.

Lemma float_gt0_not_eq0 f : float_gt0 f = true -> float_eq0 f = false.
Proof.
  destruct f as [|neg|neg m e]; simpl; intros H;
    [discriminate | reflexivity |].
  apply andb_true_iff in H as [_ H]. now apply negb_true_iff in H.
Qed.

Lemma field_gt0_not_eq0 field x :
  field_gt0 field x = Ok true -> field_eq0 field x = Ok false.
Proof.
  unfold field_gt0, field_eq0.
  destruct (py_get x field (VInt 0)) as [v|]; simpl; [|discriminate].
  destruct (py_float v) as [f|]; simpl; [|discriminate].
  intros H. inversion H as [Hf]. now rewrite (float_gt0_not_eq0 f Hf).
Qed.

Lemma filter_disjoint_length {A} (p q : A -> bool) l :
  (forall x, In x l -> p x = true -> q x = false) ->
  (List.length (filter p l) + List.length (filter q l) <= List.length l)%nat.
Proof.
  induction l as [|x l IH]; intros H; simpl; [lia|].
  assert (IH' := IH (fun y Hy => H y (or_intror Hy))).
  pose proof (H x (or_introl eq_refl)) as Hx.
  destruct (p x); [rewrite (Hx eq_refl)|destruct (q x)]; simpl; lia.
Qed.

(** X13: of the same response no record is returned both as offshore and
    as onshore, and the two lists together are no longer than the records
    fetched: a record with a negative count or one that is not a number is
    in neither. *)
Theorem offshore_and_onshore_are_disjoint self w r (d : dict) m_off m_on w1 w2 :
  next_outcome w (build_params self "json" 0 1000 None) = Response r ->
  json r = inl (VDict d) ->
  dict_mem "error" d = false ->
  filter_by_offshore self true "json" w = (Ok m_off, w1) ->
  filter_by_offshore self false "json" w = (Ok m_on, w2) ->
  exists items offshore onshore,
    fetched_items (VDict d) = Ok items
    /\ py_get m_off "records" VNone = Ok (VList offshore)
    /\ py_get m_on "records" VNone = Ok (VList onshore)
    /\ (forall x, In x offshore -> ~ In x onshore)
    /\ (List.length offshore + List.length onshore <= List.length items)%nat.
Proof.
  intros Ho Hj He Hoff Hon.
  rewrite (filter_by_offshore_json self w r (VDict d) Ho Hj true) in Hoff.
  rewrite (filter_by_offshore_json self w r (VDict d) Ho Hj false) in Hon.
  inversion Hoff as [[Hm1 Hw1]]. inversion Hon as [[Hm2 Hw2]].
  destruct (client_side_frame d _ m_off He Hm1)
    as (items & offshore & Hi & Hc1 & d1 & -> & Hr1 & _).
  destruct (client_side_frame d _ m_on He Hm2)
    as (items' & onshore & Hi' & Hc2 & d2 & -> & Hr2 & _).
  rewrite Hi in Hi'. inversion Hi'; subst items'.
  destruct (comprehension_ok _ _ _ Hc1) as (p & Hp & ->).
  destruct (comprehension_ok _ _ _ Hc2) as (q & Hq & ->).
  assert (Hpq : forall x, In x items -> p x = true -> q x = false).
  { intros x Hx Hpx. pose proof (Hp x Hx) as H1. pose proof (Hq x Hx) as H2.
    rewrite Hpx in H1. apply field_gt0_not_eq0 in H1. rewrite H1 in H2.
    now inversion H2. }
  exists items, (filter p items), (filter q items). simpl. rewrite Hr1, Hr2.
  repeat split; auto.
  - intros x Hx Hx'. apply filter_In in Hx as [Hin Hpx].
    apply filter_In in Hx' as [_ Hqx]. rewrite (Hpq x Hin Hpx) in Hqx. discriminate.
  - now apply filter_disjoint_length.
Qed.

Lemma offshore_and_onshore_are_disjoint_witness :
  exists items offshore onshore,
    fetched_items offshore_mixed = Ok items
    /\ py_get (VDict [("records", VList [record_of "offshore" (VStr "12")]);
                      ("count", VInt 1)]) "records" VNone = Ok (VList offshore)
    /\ py_get (VDict [("records", VList [record_of "offshore" (VStr "0.0");
                                         record_of "status" (VStr "Flowing")]);
                      ("count", VInt 2)]) "records" VNone = Ok (VList onshore)
    /\ (forall x, In x offshore -> ~ In x onshore)
    /\ (List.length offshore + List.length onshore <= List.length items)%nat.
Proof.
  apply (offshore_and_onshore_are_disjoint default_client (serving offshore_mixed)
           (json_response offshore_mixed) _ _ _ _ _ eq_refl eq_refl eq_refl
           eq_refl eq_refl).
Defined.

(** X14: [filter_by_status] leaves the filtering to the server: it sends
    one request, for the first 10 records with [filters[status]] set to the
    status, and returns the decoded answer as it is. *)
Theorem filter_by_status_asks_the_server self status w r v :
  let params := build_params self "json" 0 10 (Some [("status", VStr status)]) in
  next_outcome w params = Response r ->
  json r = inl v ->
  filter_by_status self status "json" w = (Ok v, sending w params)
  /\ dict_get "filters[status]" params = Some (VStr status)
  /\ limit_of params = Some 10
  /\ offset_of params = Some 0.
Proof.
  intros params Ho Hj. split; [|repeat split].
  unfold filter_by_status.
  now rewrite (get_wells_data_decoded self "json" 0 10
                 (Some [("status", VStr status)]) w r v eq_refl Ho Hj).
Qed.

Lemma filter_by_status_asks_the_server_witness :
  filter_by_status default_client "Flowing" "json" (serving offshore_parsed)
  = (Ok offshore_parsed,
     sending (serving offshore_parsed)
       (build_params default_client "json" 0 10 (Some [("status", VStr "Flowing")]))).
Proof.
  apply (filter_by_status_asks_the_server default_client "Flowing"
           (serving offshore_parsed) (json_response offshore_parsed) _
           eq_refl eq_refl).
Defined.

(** ** The command line *)

Lemma filter_by_state_sends self state_name format_type w res w' :
  In (lower state_name) known_states ->
  filter_by_state self state_name format_type w = (res, w') ->
  sent w' = (sent w ++ [build_params self format_type 0 1000 None])%list.
Proof.
  intros Hin. apply known_state_field in Hin as [Hmem _].
  pose proof (get_wells_data_sends self format_type 0 1000 None w) as Hs.
  remember (build_params self format_type 0 1000 None) as p.
  unfold filter_by_state. rewrite Hmem. change (negb true) with false. cbv iota.
  unfold bind at 1.
  destruct (get_wells_data self format_type 0 1000 None w) as [[v|e] w1];
    cbn [snd] in Hs.
  - rewrite <- Hs. unfold bind, lift, ret. intros H.
    branch_in H; inversion H; subst; reflexivity.
  - intros H; inversion H; subst; exact Hs.
Qed.

Lemma keeps_sent_ret {A} (a : A) : keeps_sent (ret a).
Proof. intros w. reflexivity. Qed.

Lemma keeps_sent_lift {A} (r : result A) : keeps_sent (lift r).
Proof. intros w. reflexivity. Qed.

Lemma keeps_sent_print line : keeps_sent (print line).
Proof. intros w. reflexivity. Qed.

Lemma bind_sent {A B} (m : M A) (k : A -> M B) w :
  (forall a, keeps_sent (k a)) ->
  sent (snd (bind m k w)) = sent (snd (m w)).
Proof.
  intros Hk. unfold bind. destruct (m w) as [[a|e] w1]; [apply Hk | reflexivity].
Qed.

Lemma keeps_sent_bind {A B} (m : M A) (k : A -> M B) :
  keeps_sent m -> (forall a, keeps_sent (k a)) -> keeps_sent (bind m k).
Proof. intros Hm Hk w. rewrite bind_sent by exact Hk. apply Hm. Qed.

Ltac quiet :=
  repeat first
    [ apply keeps_sent_ret
    | apply keeps_sent_lift
    | apply keeps_sent_print
    | apply keeps_sent_bind; [|intros ?]
    | match goal with
      | |- keeps_sent (match ?x with _ => _ end) => destruct x
      | |- keeps_sent (if ?b then _ else _) => destruct b
      end ].

Lemma checked_keeps_sent result : keeps_sent (Cli.checked result).
Proof. unfold Cli.checked. quiet. Qed.

(** X15: with a state that is known, [main] sends one request, for 1000
    records from offset 0, and does what it does whatever the other
    options are: the status, the offshore, onshore and all flags, the
    offset and the limit are not looked at. *)
Theorem main_state_first fuel fuel' args args' name w :
  Cli.given (Cli.state args) = Some name ->
  In (lower name) known_states ->
  Cli.state args' = Cli.state args ->
  Cli.api_key args' = Cli.api_key args ->
  Cli.format args' = Cli.format args ->
  Cli.save args' = Cli.save args ->
  Cli.main fuel args w = Cli.main fuel' args' w
  /\ sent (snd (Cli.main fuel args w))
     = (sent w ++ [build_params (new_client (Cli.api_key args)) (Cli.format args)
                     0 1000 None])%list.
Proof.
  intros Hstate Hknown Es Ek Ef Ev. split.
  - unfold Cli.main, Cli.select. now rewrite Es, Ek, Ef, Ev, Hstate.
  - unfold Cli.main, Cli.select. rewrite Hstate.
    rewrite bind_sent by (intros [[data|]|]; quiet).
    rewrite bind_sent
      by (intros result; apply keeps_sent_bind;
          [apply checked_keeps_sent | intros ?; quiet]).
    destruct (filter_by_state (new_client (Cli.api_key args)) name (Cli.format args) w)
      as [res w1] eqn:Hf.
    exact (filter_by_state_sends _ _ _ _ _ _ Hknown Hf).
Qed.

Lemma main_state_first_witness :
  Cli.main 0 state_args (serving gujarat_parsed)
  = Cli.main 5 all_args_with_state (serving gujarat_parsed)
  /\ sent (snd (Cli.main 0 state_args (serving gujarat_parsed)))
     = [build_params default_client "json" 0 1000 None].
Proof.
  apply (main_state_first 0 5 state_args all_args_with_state "gujarat"
           (serving gujarat_parsed) eq_refl);
    try reflexivity.
  simpl. auto.
Defined.

(** X16: with a state that is given and not known, [main] prints the
    message that lists the known states and returns: no request is sent and
    nothing is saved or shown, whatever the other options are. *)
Theorem main_unknown_state fuel args name w :
  Cli.given (Cli.state args) = Some name ->
  ~ In (lower name) known_states ->
  Cli.main fuel args w
  = (Ok (Some Cli.Returned),
     printing w
       [FmtVal (VStr ("Invalid state name. Available states: "
                      ++ repr_str_list known_states))]).
Proof.
  intros Hstate Hnot.
  assert (Hmem : dict_mem (lower name) state_filters = false).
  { destruct (dict_mem (lower name) state_filters) eqn:E; [|reflexivity].
    apply dict_mem_keys in E. contradiction. }
  unfold Cli.main, Cli.select. rewrite Hstate.
  unfold bind at 1 2. unfold filter_by_state. rewrite Hmem. reflexivity.
Qed.

Lemma main_unknown_state_witness :
  Cli.main 0 atlantis_args (serving gujarat_parsed)
  = (Ok (Some Cli.Returned),
     printing (serving gujarat_parsed)
       [FmtVal (VStr ("Invalid state name. Available states: "
                      ++ repr_str_list known_states))]).
Proof.
  apply (main_unknown_state 0 atlantis_args "atlantis" (serving gujarat_parsed) eq_refl).
  simpl. intros H. repeat (destruct H as [H|H]; [discriminate H|]). exact H.
Defined.

(** X17: [--all] against an upstream whose first fetch fails: the failure
    is printed by the loop, and [main] goes on to show the empty list as
    JSON; it reports no error of its own. *)
Theorem main_all_shows_empty_on_failure fuel args w err :
  Cli.given (Cli.state args) = None ->
  Cli.given (Cli.status args) = None ->
  Cli.offshore args = false ->
  Cli.onshore args = false ->
  Cli.all args = true ->
  Cli.format args = "json" ->
  Cli.given (Cli.save args) = None ->
  fetch_fails
    (next_outcome w (build_params (new_client (Cli.api_key args)) "json" 0 100 None))
    err ->
  (1 <= fuel)%nat ->
  exists w',
    Cli.main fuel args w = (Ok (Some (Cli.Emitted (Cli.PrintJson (VList [])))), w')
    /\ exists lines,
         printed w'
         = (printed w ++ lines
              ++ [[Lit "Error at offset "; FmtInt 0; Lit ": "; FmtVal (VStr err)]])%list.
Proof.
  intros Hstate Hstatus Hoff Hon Hall Hfmt Hsave Hfail Hfuel.
  destruct fuel as [|fuel]; [lia|].
  destruct (loop_body_failed (new_client (Cli.api_key args)) 100 initial_state w err Hfail)
    as (w1 & Hb & _ & _ & lines & Hp).
  unfold Cli.main, Cli.select.
  rewrite Hstate, Hstatus, Hoff, Hon, Hall, Hfmt, Hsave.
  unfold bind at 1 2. unfold get_all_wells_data. rewrite while_true_step, Hb.
  eexists. split; [reflexivity|].
  exists lines. simpl. now rewrite Hp, <- app_assoc.
Qed.

Lemma main_all_shows_empty_on_failure_witness :
  exists w',
    Cli.main 1 all_args unreachable
    = (Ok (Some (Cli.Emitted (Cli.PrintJson (VList [])))), w')
    /\ exists lines,
         printed w'
         = (lines ++ [[Lit "Error at offset "; FmtInt 0; Lit ": ";
                       FmtVal (VStr "HTTPSConnectionPool: Read timed out.")]])%list.
Proof.
  apply (main_all_shows_empty_on_failure 1 all_args unreachable
           "HTTPSConnectionPool: Read timed out."
           eq_refl eq_refl eq_refl eq_refl eq_refl eq_refl eq_refl
           (transport_fails _) (le_n 1)).
Defined.

(** A call in a format that is neither JSON nor XML returns the body. *)
Lemma get_wells_data_text self format_type offset limit filters w r :
  format_type <> "json" ->
  format_type <> "xml" ->
  next_outcome w (build_params self format_type offset limit filters) = Response r ->
  get_wells_data self format_type offset limit filters w
  = (Ok (VStr (text r)),
     sending w (build_params self format_type offset limit filters)).
Proof.
  intros Hj Hx Ho. apply String.eqb_neq in Hj. apply String.eqb_neq in Hx.
  unfold get_wells_data, bind, requests_get, next_outcome in *.
  rewrite Ho. cbv beta iota. now rewrite Hj, Hx.
Qed.

(** The test [in] on a text that has [error] in it succeeds, and what
    follows the test is evaluated. *)
Ltac raise_on_text Herr :=
  repeat (cbv beta iota zeta; unfold py_contains, py_getitem; rewrite ?Herr);
  reflexivity.

(** X18: in a format that is neither JSON nor XML, a body with the text
    [error] in it makes [main] raise [TypeError], whichever option picks
    the data: the test for an error finds the text and the report of it
    subscripts a string. *)
Theorem main_raises_on_error_text fuel args w :
  Cli.format args <> "json" ->
  Cli.format args <> "xml" ->
  mentions_error (upstream w) ->
  (forall name, Cli.given (Cli.state args) = Some name -> In (lower name) known_states) ->
  (1 <= fuel)%nat ->
  fst (Cli.main fuel args w) = Raise TypeError.
Proof.
  intros Hj Hx Hup Hknown Hfuel.
  pose proof Hj as Hj'. apply String.eqb_neq in Hj'.
  assert (Hget : forall offset limit filters,
             exists r,
               get_wells_data (new_client (Cli.api_key args)) (Cli.format args)
                              offset limit filters w
               = (Ok (VStr (text r)),
                  sending w (build_params (new_client (Cli.api_key args))
                               (Cli.format args) offset limit filters))
               /\ str_contains "error" (text r) = true).
  { intros offset limit filters.
    destruct (Hup (List.length (sent w))
                  (build_params (new_client (Cli.api_key args)) (Cli.format args)
                     offset limit filters)) as (r & Ho & Herr).
    exists r. split; [|exact Herr]. now apply get_wells_data_text. }
  unfold Cli.main, Cli.select.
  destruct (Cli.given (Cli.state args)) as [name|] eqn:Hstate.
  - destruct (known_state_field name (Hknown name eq_refl)) as [Hmem _].
    destruct (Hget 0 1000 None) as (r & Hg & Herr).
    unfold bind at 1 2. unfold filter_by_state. rewrite Hmem.
    change (negb true) with false. cbv iota. unfold bind at 1. rewrite Hg.
    unfold Cli.checked, bind, lift, ret. raise_on_text Herr.
  - destruct (Cli.given (Cli.status args)) as [status|].
    + destruct (Hget 0 10 (Some [("status", VStr status)])) as (r & Hg & Herr).
      unfold bind at 1 2. unfold filter_by_status. rewrite Hg.
      unfold Cli.checked, bind, lift, ret. raise_on_text Herr.
    + destruct (Cli.offshore args); [|destruct (Cli.onshore args); [|destruct (Cli.all args)]].
      * destruct (Hget 0 1000 None) as (r & Hg & Herr).
        unfold bind at 1 2. unfold filter_by_offshore. unfold bind at 1. rewrite Hg.
        unfold bind, lift, ret. raise_on_text Herr.
      * destruct (Hget 0 1000 None) as (r & Hg & Herr).
        unfold bind at 1 2. unfold filter_by_offshore. unfold bind at 1. rewrite Hg.
        unfold bind, lift, ret. raise_on_text Herr.
      * destruct fuel as [|fuel]; [lia|].
        destruct (Hget 0 100 None) as (r & Hg & Herr).
        unfold bind at 1 2. unfold get_all_wells_data. rewrite while_true_step.
        unfold loop_body. unfold bind at 1. change (offset initial_state) with 0.
        rewrite Hg. unfold bind, lift, ret. raise_on_text Herr.
      * destruct (Hget (Cli.offset args) (Cli.limit args) None) as (r & Hg & Herr).
        unfold bind at 1 2. rewrite Hg.
        unfold bind, lift, ret. raise_on_text Herr.
Qed.

Lemma main_raises_on_error_text_witness :
  fst (Cli.main 1 csv_args (serving_text "status,remarks,Shut-in wells,sensor error"))
  = Raise TypeError.
Proof.
  apply (main_raises_on_error_text 1 csv_args
           (serving_text "status,remarks,Shut-in wells,sensor error")).
  - discriminate.
  - discriminate.
  - intros k params. eexists. split; reflexivity.
  - intros name H. discriminate H.
  - apply le_n.
Defined.

(** ** The map's record of totals *)

(** The search stops at the first record whose status mentions the total;
    what follows it is not looked at. *)
Lemma first_total_flowing_found before hit after :
  (forall x, In x before -> status_mentions "Total Flowing Wells" x = Ok false) ->
  status_mentions "Total Flowing Wells" hit = Ok true ->
  first_total_flowing (before ++ hit :: after) = Ok (Some hit).
Proof.
  intros Hbefore Hhit. induction before as [|x before IH]; simpl.
  - now rewrite Hhit.
  - rewrite (Hbefore x (or_introl eq_refl)). simpl.
    apply IH. intros y Hy. apply Hbefore. now right.
Qed.

Lemma first_total_flowing_none records :
  (forall x, In x records -> status_mentions "Total Flowing Wells" x = Ok false) ->
  first_total_flowing records = Ok None.
Proof.
  intros H. induction records as [|x records IH]; simpl; [reflexivity|].
  rewrite (H x (or_introl eq_refl)). simpl. apply IH. intros y Hy. apply H. now right.
Qed.

Lemma get_oil_wells_data_decoded self w r (d : dict) records :
  next_outcome (printing w [Lit "🔄 Fetching oil wells data..."])
               (build_params (client self) "json" 0 1000 None) = Response r ->
  json r = inl (VDict d) ->
  dict_mem "error" d = false ->
  dict_get "records" d = Some (VList records) ->
  fst (get_oil_wells_data self w)
  = match first_total_flowing records with
    | Ok (Some record) =>
        Ok (record, {| client := client self; state_data := record |})
    | Ok None => Ok (state_data self, self)
    | Raise e => Raise e
    end.
Proof.
  intros Ho Hj He Hrec. unfold get_oil_wells_data.
  unfold bind at 1. unfold print at 1. unfold bind at 1.
  rewrite (get_wells_data_decoded (client self) "json" 0 1000 None _ r (VDict d)
             eq_refl Ho Hj).
  unfold bind, lift, ret. simpl. rewrite He, Hrec. simpl.
  destruct (first_total_flowing records) as [[record|]|]; reflexivity.
Qed.

(** X19: [get_oil_wells_data] returns, and keeps as the state data, the
    first fetched record whose status has [Total Flowing Wells] in it; the
    records after it are not examined, whatever they hold. *)
Theorem get_oil_wells_data_first_total self w r (d : dict) before hit after :
  next_outcome (printing w [Lit "🔄 Fetching oil wells data..."])
               (build_params (client self) "json" 0 1000 None) = Response r ->
  json r = inl (VDict d) ->
  dict_mem "error" d = false ->
  dict_get "records" d = Some (VList (before ++ hit :: after)) ->
  (forall x, In x before -> status_mentions "Total Flowing Wells" x = Ok false) ->
  status_mentions "Total Flowing Wells" hit = Ok true ->
  fst (get_oil_wells_data self w)
  = Ok (hit, {| client := client self; state_data := hit |}).
Proof.
  intros Ho Hj He Hrec Hbefore Hhit.
  rewrite (get_oil_wells_data_decoded self w r d _ Ho Hj He Hrec).
  now rewrite (first_total_flowing_found before hit after Hbefore Hhit).
Qed.

Lemma get_oil_wells_data_first_total_witness :
  fst (get_oil_wells_data new_map (serving status_records))
  = Ok (VDict [("status", VStr "Total Flowing Wells (Oil + Gas)");
               ("gujarat", VStr "3547")],
        {| client := default_client;
           state_data := VDict [("status", VStr "Total Flowing Wells (Oil + Gas)");
                                ("gujarat", VStr "3547")] |}).
Proof.
  apply (get_oil_wells_data_first_total new_map (serving status_records)
           (json_response status_records) _
           [VDict [("status", VStr "Shut-in Wells"); ("gujarat", VStr "12")]]
           (VDict [("status", VStr "Total Flowing Wells (Oil + Gas)");
                   ("gujarat", VStr "3547")])
           [VDict [("status", VInt 7)]]
           eq_refl eq_refl eq_refl eq_refl).
  - intros x [<-|[]]. reflexivity.
  - reflexivity.
Defined.

(** X20: when no fetched record mentions the total, a new map gets the
    empty mapping back, which is false as a condition, so that the caller
    takes the fetch for failed; the map is as it was. *)
Theorem get_oil_wells_data_no_total w r (d : dict) records :
  next_outcome (printing w [Lit "🔄 Fetching oil wells data..."])
               (build_params default_client "json" 0 1000 None) = Response r ->
  json r = inl (VDict d) ->
  dict_mem "error" d = false ->
  dict_get "records" d = Some (VList records) ->
  (forall x, In x records -> status_mentions "Total Flowing Wells" x = Ok false) ->
  exists returned,
    fst (get_oil_wells_data new_map w) = Ok (returned, new_map)
    /\ truthy returned = false.
Proof.
  intros Ho Hj He Hrec Hnone. exists (VDict []).
  rewrite (get_oil_wells_data_decoded new_map w r d records Ho Hj He Hrec).
  now rewrite (first_total_flowing_none records Hnone).
Qed.

Lemma get_oil_wells_data_no_total_witness :
  exists returned,
    fst (get_oil_wells_data new_map (serving offshore_parsed)) = Ok (returned, new_map)
    /\ truthy returned = false.
Proof.
  apply (get_oil_wells_data_no_total (serving offshore_parsed)
           (json_response offshore_parsed) _ _ eq_refl eq_refl eq_refl eq_refl).
  intros x [<-|[<-|[<-|[]]]]; reflexivity.
Defined.

(** ** [get_wells_data] in JSON *)

(** A call whose decoder raised something other than [JSONDecodeError]
    raises it: neither handler is for it. *)
Lemma get_wells_data_json_raises self offset limit filters w r other :
  next_outcome w (build_params self "json" offset limit filters) = Response r ->
  json r = inr (inr other) ->
  get_wells_data self "json" offset limit filters w
  = (Raise other, sending w (build_params self "json" offset limit filters)).
Proof.
  unfold next_outcome, get_wells_data, bind, requests_get.
  intros Ho Hj. simpl. now rewrite Ho, Hj.
Qed.

(** X21: in the JSON format [get_wells_data] returns the decoded body, or,
    for a request that failed or a body that raised [JSONDecodeError], the
    mapping whose only key is [error] with the failure's message; any
    other exception of [response.json()] it lets through to the caller.
    A request that fails with a [RequestException] or is answered has no
    other outcome. *)
Theorem get_wells_data_json_outcomes self offset limit filters w :
  let outcome := next_outcome w (build_params self "json" offset limit filters) in
  (exists r v,
      outcome = Response r /\ json r = inl v
      /\ fst (get_wells_data self "json" offset limit filters w) = Ok v)
  \/ (exists err,
        fetch_fails outcome err
        /\ fst (get_wells_data self "json" offset limit filters w)
           = Ok (VDict [("error", VStr err)]))
  \/ (exists r other,
        outcome = Response r /\ json r = inr (inr other)
        /\ fst (get_wells_data self "json" offset limit filters w) = Raise other).
Proof.
  intros outcome. destruct outcome as [msg|r] eqn:Ho.
  - right. left. exists msg. split; [constructor|].
    now rewrite (get_wells_data_request_failed self "json" offset limit filters w msg Ho).
  - destruct (json r) as [v|[e|other]] eqn:Hj.
    + left. exists r, v. repeat split; auto.
      now rewrite (get_wells_data_decoded self "json" offset limit filters w r v
                     eq_refl Ho Hj).
    + right. left. exists ("JSON decode error: " ++ e). split; [now constructor|].
      now rewrite (get_wells_data_json_decode_error self "json" offset limit filters
                     w r e eq_refl Ho Hj).
    + right. right. exists r, other. repeat split; auto.
      now rewrite (get_wells_data_json_raises self offset limit filters w r other Ho Hj).
Qed.

(** A body whose decoding raises [ValueError], a number of 4301 digits:
    the call raises it. *)
Example get_wells_data_digit_limit :
  fst (get_wells_data default_client "json" 0 10 None serving_too_many_digits)
  = Raise ValueError.
Proof. reflexivity. Qed.

(** ** The rank of a state *)

Lemma filter_none {A} (f : A -> bool) l :
  (forall x, In x l -> f x = false) -> filter f l = [].
Proof.
  induction l as [|x l IH]; intros H; simpl; [reflexivity|].
  rewrite (H x (or_introl eq_refl)). apply IH. intros y Hy. apply H. now right.
Qed.

Section StateRankProperties.

Variable K : Type.
Variable lt : K -> K -> bool.

(** [<] on the counts is a strict weak order. *)
Hypothesis lt_asym : forall a b, lt a b = true -> lt b a = false.
Hypothesis lt_negtrans : forall a b c, lt a c = true -> lt a b = true \/ lt b c = true.

Let descending := descending lt.

Lemma insert_desc_In x y (l : list (string * state_entry K)) :
  In y (insert_desc lt x l) <-> y = x \/ In y l.
Proof.
  induction l as [|z l IH]; simpl; [intuition|].
  destruct (lt (wells (snd x)) (wells (snd z))); simpl; rewrite ?IH; intuition.
Qed.

Lemma sorted_desc_In y (l : list (string * state_entry K)) :
  In y (sorted_desc lt l) <-> In y l.
Proof.
  induction l as [|x l IH]; simpl; [tauto|].
  rewrite insert_desc_In, IH. intuition.
Qed.

Lemma insert_desc_descending x (l : list (string * state_entry K)) :
  descending l -> descending (insert_desc lt x l).
Proof.
  unfold descending. induction 1 as [|y l Hl IH Hy]; simpl.
  - repeat constructor.
  - destruct (lt (wells (snd x)) (wells (snd y))) eqn:E.
    + constructor; [exact IH|]. apply Forall_forall. intros z Hz.
      apply insert_desc_In in Hz as [->|Hz]; [now apply lt_asym|].
      rewrite Forall_forall in Hy. now apply Hy.
    + constructor; [now constructor|]. constructor; [exact E|].
      apply Forall_forall. intros z Hz. rewrite Forall_forall in Hy.
      destruct (lt (wells (snd x)) (wells (snd z))) eqn:Ez; [|reflexivity].
      destruct (lt_negtrans _ (wells (snd y)) _ Ez) as [H|H]; [congruence|].
      rewrite (Hy z Hz) in H. discriminate.
Qed.

Lemma sorted_desc_descending (l : list (string * state_entry K)) :
  descending (sorted_desc lt l).
Proof.
  induction l as [|x l IH]; simpl; [constructor | now apply insert_desc_descending].
Qed.

Lemma insert_desc_count (f : string * state_entry K -> bool) x l :
  List.length (filter f (insert_desc lt x l)) = List.length (filter f (x :: l)).
Proof.
  induction l as [|y l IH]; simpl; [reflexivity|].
  destruct (lt (wells (snd x)) (wells (snd y))); simpl; [|reflexivity].
  simpl in IH. destruct (f y), (f x); simpl in *; lia.
Qed.

Lemma sorted_desc_count (f : string * state_entry K -> bool) l :
  List.length (filter f (sorted_desc lt l)) = List.length (filter f l).
Proof.
  induction l as [|x l IH]; simpl; [reflexivity|].
  rewrite insert_desc_count. simpl. destruct (f x); simpl; now rewrite IH.
Qed.

Lemma rank_from_absent i state (l : list (string * state_entry K)) :
  ~ In state (map fst l) -> rank_from i state l = 0.
Proof.
  revert i. induction l as [|[s e] l IH]; intros i H; simpl; [reflexivity|].
  destruct (String.eqb s state) eqn:E.
  - apply String.eqb_eq in E. simpl in H. tauto.
  - apply IH. simpl in H. tauto.
Qed.

Lemma rank_from_shift i state (l : list (string * state_entry K)) :
  In state (map fst l) -> rank_from (i + 1) state l = rank_from i state l + 1.
Proof.
  revert i. induction l as [|[s e] l IH]; intros i H; simpl; [destruct H|].
  destruct (String.eqb s state) eqn:E; [reflexivity|].
  apply IH. destruct H as [H|H]; [|exact H].
  simpl in H. apply String.eqb_neq in E. congruence.
Qed.

Lemma rank_from_range i state (l : list (string * state_entry K)) :
  In state (map fst l) ->
  i <= rank_from i state l < i + Z.of_nat (List.length l).
Proof.
  revert i. induction l as [|[s x] l IH]; intros i Hin; [destruct Hin|].
  simpl rank_from. destruct (String.eqb s state) eqn:E.
  - simpl List.length. lia.
  - assert (Hin' : In state (map fst l)).
    { destruct Hin as [Hs|Hs]; [|exact Hs]. apply String.eqb_neq in E.
      simpl in Hs. congruence. }
    specialize (IH (i + 1) Hin'). simpl List.length. lia.
Qed.

(** Where a state lands when it is the one inserted. *)
Lemma rank_from_insert_self i state e (l : list (string * state_entry K)) :
  descending l ->
  ~ In state (map fst l) ->
  rank_from i state (insert_desc lt (state, e) l)
  = i + Z.of_nat (List.length (filter (fun y => lt (wells e) (wells (snd y))) l)).
Proof.
  unfold descending. intros Hl. revert i.
  induction Hl as [|y l Hl IH Hy]; intros i Hnot; simpl.
  - rewrite String.eqb_refl. lia.
  - destruct (lt (wells e) (wells (snd y))) eqn:E; simpl.
    + destruct y as [s ey]. simpl in Hnot.
      destruct (String.eqb s state) eqn:Es;
        [apply String.eqb_eq in Es; tauto|].
      rewrite IH by tauto. lia.
    + rewrite String.eqb_refl.
      rewrite filter_none; [simpl; lia|].
      intros z Hz. rewrite Forall_forall in Hy.
      destruct (lt (wells e) (wells (snd z))) eqn:Ez; [|reflexivity].
      destruct (lt_negtrans _ (wells (snd y)) _ Ez) as [H|H]; [congruence|].
      rewrite (Hy z Hz) in H. discriminate.
Qed.

(** How another item going in moves a state that is there. *)
Lemma rank_from_insert_other i state k x (l : list (string * state_entry K)) :
  descending l ->
  fst x <> state ->
  In state (map fst l) ->
  (forall y, In y l -> fst y = state -> wells (snd y) = k) ->
  rank_from i state (insert_desc lt x l)
  = rank_from i state l + (if lt (wells (snd x)) k then 0 else 1).
Proof.
  unfold descending. intros Hl Hx. revert i.
  induction Hl as [|y l Hl IH Hy]; intros i Hin Hk; [destruct Hin|].
  assert (Hxs : String.eqb (fst x) state = false) by now apply String.eqb_neq.
  simpl. destruct (lt (wells (snd x)) (wells (snd y))) eqn:E.
  - destruct y as [s ey]. simpl in E. simpl.
    destruct (String.eqb s state) eqn:Es.
    + apply String.eqb_eq in Es.
      rewrite <- (Hk (s, ey) (or_introl eq_refl) Es). simpl. rewrite E. lia.
    + apply IH.
      * destruct Hin as [H|H]; [|exact H].
        simpl in H. apply String.eqb_neq in Es. congruence.
      * intros z Hz. apply Hk. now right.
  - destruct x as [sx ex]. simpl in *. rewrite Hxs.
    destruct y as [s ey]. simpl in *.
    destruct (String.eqb s state) eqn:Es.
    + apply String.eqb_eq in Es.
      rewrite <- (Hk (s, ey) (or_introl eq_refl) Es). simpl. now rewrite E.
    + assert (Hin' : In state (map fst l)).
      { destruct Hin as [H|H]; [|exact H]. apply String.eqb_neq in Es. congruence. }
      rewrite (rank_from_shift (i + 1) state l Hin').
      destruct (lt (wells ex) k) eqn:Ek; [|lia].
      exfalso. destruct (lt_negtrans _ (wells ey) _ Ek) as [H|H]; [congruence|].
      apply in_map_iff in Hin' as ([s' e'] & Hs' & Hz). simpl in Hs'. subst s'.
      rewrite Forall_forall in Hy. specialize (Hy _ Hz).
      pose proof (Hk (state, e') (or_intror Hz) eq_refl) as Hke.
      simpl in Hy, Hke. congruence.
Qed.

(** X22: the rank of a state is one more than the number of states with
    no fewer wells that come before it in [state_info] and of states with
    more wells that come after it: of two states with as many wells the one
    that was entered first ranks higher. *)
Theorem get_state_rank_counts state e (before after : list (string * state_entry K)) :
  ~ In state (map fst before) ->
  ~ In state (map fst after) ->
  get_state_rank lt state (before ++ (state, e) :: after)
  = 1 + Z.of_nat (List.length
                    (filter (fun y => negb (lt (wells (snd y)) (wells e))) before))
      + Z.of_nat (List.length
                    (filter (fun y => lt (wells e) (wells (snd y))) after)).
Proof.
  intros Hb Ha. unfold get_state_rank.
  induction before as [|b before IH]; cbn [app sorted_desc fold_right].
  - fold (sorted_desc lt after). rewrite rank_from_insert_self.
    + rewrite sorted_desc_count. cbn [filter List.length].
      change (Z.of_nat 0) with 0. now rewrite Z.add_0_r.
    + apply sorted_desc_descending.
    + intros H. apply Ha. apply in_map_iff in H as (y & Hy & Hin).
      apply (proj1 (sorted_desc_In _ _)) in Hin. apply in_map_iff. now exists y.
  - simpl in Hb. fold (sorted_desc lt (before ++ (state, e) :: after)).
    rewrite (rank_from_insert_other 1 state (wells e)).
    + rewrite IH by tauto. cbn [filter].
      destruct (lt (wells (snd b)) (wells e)); cbn [negb List.length]; lia.
    + apply sorted_desc_descending.
    + tauto.
    + apply in_map_iff. exists (state, e). split; [reflexivity|].
      apply (proj2 (sorted_desc_In _ _)), in_or_app. right. now left.
    + intros y Hy Hs. apply (proj1 (sorted_desc_In _ _)) in Hy.
      apply in_app_or in Hy as [Hy|[<-|Hy]]; [| reflexivity |].
      * exfalso. apply Hb. right. apply in_map_iff. now exists y.
      * exfalso. apply Ha. apply in_map_iff. now exists y.
Qed.

(** X23: a state that is not in [state_info] has rank 0, and no other
    state has: the rank of one that is there lies between 1 and the number
    of states. *)
Theorem get_state_rank_range state (state_info : list (string * state_entry K)) :
  (~ In state (map fst state_info) -> get_state_rank lt state state_info = 0)
  /\ (In state (map fst state_info) ->
      1 <= get_state_rank lt state state_info <= Z.of_nat (List.length state_info)).
Proof.
  unfold get_state_rank.
  assert (Hkeys : In state (map fst (sorted_desc lt state_info))
                  <-> In state (map fst state_info)).
  { rewrite !in_map_iff. split; intros (y & Hy & Hin); exists y;
      (split; [exact Hy|]);
      [apply (proj1 (sorted_desc_In y _)) | apply (proj2 (sorted_desc_In y _))];
      exact Hin. }
  assert (Hlen : List.length (sorted_desc lt state_info) = List.length state_info).
  { pose proof (sorted_desc_count (fun _ => true) state_info) as H.
    now rewrite !filter_all_pass in H by reflexivity. }
  split.
  - intros H. apply rank_from_absent. now rewrite Hkeys.
  - intros H. apply Hkeys in H. rewrite <- Hlen.
    pose proof (rank_from_range 1 state _ H). lia.
Qed.

End StateRankProperties.

Lemma get_state_rank_counts_witness :
  get_state_rank Z.ltb "Tamil Nadu" ranked_states = 3.
Proof.
  apply (get_state_rank_counts Z Z.ltb
           ltac:(intros a b H; apply Z.ltb_lt in H; apply Z.ltb_ge; lia)
           ltac:(intros a b c H; apply Z.ltb_lt in H;
                 destruct (Z.ltb_spec a b); [now left | right; apply Z.ltb_lt; lia])
           "Tamil Nadu" (at_origin 459)
           [("Rajasthan", at_origin 459); ("Tripura", at_origin 0);
            ("Gujarat", at_origin 3547)]
           [("Jharkhand (CBM)", at_origin 0)]).
  - simpl. intros H. repeat (destruct H as [H|H]; [discriminate H|]). exact H.
  - simpl. intros H. repeat (destruct H as [H|H]; [discriminate H|]). exact H.
Defined.

Lemma get_state_rank_range_witness :
  get_state_rank Z.ltb "Kerala" ranked_states = 0
  /\ 1 <= get_state_rank Z.ltb "Tripura" ranked_states <= 5.
Proof.
  destruct (get_state_rank_range Z Z.ltb "Kerala" ranked_states) as [Habsent _].
  destruct (get_state_rank_range Z Z.ltb "Tripura" ranked_states) as [_ Hthere].
  split.
  - apply Habsent. simpl. intros H.
    repeat (destruct H as [H|H]; [discriminate H|]). exact H.
  - apply Hthere. simpl. auto.
Defined.
